(** * Sales dashboard exports: a shallow embedding of [app.py]

    The development follows [src/app.py]: the two export functions
    [create_pdf] and [create_excel_with_chart], and the script-level
    construction of the SQL text ([base_condition], [query]).

    Conventions of the embedding.
    - A pandas [DataFrame] is its column labels, the dtype of every column
      and the row-major cell matrix returned by [df.values.tolist()].
    - Numbers are exact integers; a missing number is [NaN].
    - A Python exception is a value of [error]; pure pandas accessors return
      [result], the document renderer threads the file system through a
      state monad whose state survives an exception.
    - The exceptions modelled are those of label and position lookups, of
      [nlargest] on a column that is not numeric, of [plt.pie] on wedge
      sizes it rejects, of the read of an unbound variable, and of
      [doc.build].  The other plotting and export calls of matplotlib,
      reportlab and xlsxwriter are modelled by the data they are given.
    - Frames are read with distinct column labels and with numbers that
      [df.values] keeps as they are (integers of magnitude at most 2^53);
      the properties that depend on it say so ([distinct_labels],
      [float64_exact]). *)

From Stdlib Require Import List String Ascii ZArith Bool Arith Lia Permutation.
From Stdlib Require QArith.
Import ListNotations.
Local Open Scope string_scope.
Local Open Scope nat_scope.

(** ** Exceptions and results *)

Inductive error : Type :=
| KeyError (key : string)          (* df[key], get_loc(key) on an absent label *)
| TypeError (msg : string)         (* nlargest on an object column *)
| IndexError                       (* positional access out of range *)
| NameError (name : string)        (* read of an unbound variable *)
| OSError (path : string)          (* doc.build could not read or write *)
| ValueError.                      (* plt.pie on sizes it cannot draw *)

Inductive result (A : Type) : Type :=
| Ok (a : A)
| Err (e : error).

Arguments Ok {A} a.
Arguments Err {A} e.

Definition rbind {A B} (r : result A) (k : A -> result B) : result B :=
  match r with
  | Ok a => k a
  | Err e => Err e
  end.

Declare Scope result_scope.
Delimit Scope result_scope with result.
Notation "'let*' x ':=' r 'in' k" := (rbind r (fun x => k))
  (at level 10, x name, r at level 100, k at level 200) : result_scope.
Local Open Scope result_scope.

Fixpoint mapM {A B} (f : A -> result B) (l : list A) : result (list B) :=
  match l with
  | [] => Ok []
  | a :: l' =>
      let* b := f a in
      let* bs := mapM f l' in
      Ok (b :: bs)
  end.

(** ** pandas: cells, series and frames *)

Inductive cell : Type :=
| Num (z : Z)
| Str (s : string)
| NaN.

Inductive dtype : Type := numeric | object.

Record Series : Type := { s_dtype : dtype; s_data : list cell }.

Record DataFrame : Type := {
  columns : list string;
  dtypes : list dtype;
  values : list (list cell)
}.

(** [len(df)] *)
Definition len (df : DataFrame) : nat := List.length (values df).

(** [name in df.columns] *)
Definition has_column (df : DataFrame) (name : string) : bool :=
  existsb (String.eqb name) (columns df).

Fixpoint index_of (name : string) (l : list string) : option nat :=
  match l with
  | [] => None
  | c :: l' =>
      if String.eqb name c then Some 0
      else match index_of name l' with
           | Some j => Some (S j)
           | None => None
           end
  end.

(** [df.columns.get_loc(name)] *)
Definition get_loc (df : DataFrame) (name : string) : result nat :=
  match index_of name (columns df) with
  | Some j => Ok j
  | None => Err (KeyError name)
  end.

(** [row[j]] on a Python list *)
Definition getitem_row (row : list cell) (j : nat) : result cell :=
  match nth_error row j with
  | Some c => Ok c
  | None => Err IndexError
  end.

(** Column [j] of the frame, by position. *)
Definition column_at (df : DataFrame) (j : nat) : result Series :=
  match nth_error (dtypes df) j with
  | None => Err IndexError
  | Some dt =>
      let* data := mapM (fun row => getitem_row row j) (values df) in
      Ok {| s_dtype := dt; s_data := data |}
  end.

(** [df[name]] *)
Definition getitem (df : DataFrame) (name : string) : result Series :=
  let* j := get_loc df name in
  column_at df j.

(** [df.iloc[:, -1]] *)
Definition iloc_last (df : DataFrame) : result Series :=
  match List.length (columns df) with
  | O => Err IndexError
  | S j => column_at df j
  end.

(** [Series.dropna()] on a numeric series, as the list of its numbers. *)
Fixpoint dropna (l : list cell) : list Z :=
  match l with
  | [] => []
  | Num z :: l' => z :: dropna l'
  | _ :: l' => dropna l'
  end.

Fixpoint insert_desc (x : Z) (l : list Z) : list Z :=
  match l with
  | [] => [x]
  | y :: l' => if (y <=? x)%Z then x :: l else y :: insert_desc x l'
  end.

Fixpoint sort_desc (l : list Z) : list Z :=
  match l with
  | [] => []
  | x :: l' => insert_desc x (sort_desc l')
  end.

(** [Series.nlargest(n).tolist()]: the dtype is checked first, missing
    values are dropped, the [n] largest entries are returned in descending
    order (duplicates are kept). *)
Definition nlargest (n : nat) (s : Series) : result (list Z) :=
  match s_dtype s with
  | object => Err (TypeError "Cannot use method 'nlargest' with dtype object")
  | numeric => Ok (firstn n (sort_desc (dropna (s_data s))))
  end.

(** [value in top_amounts]: Python membership by [==].  A string never
    equals a number and [nan] equals nothing. *)
Definition cell_in (value : cell) (top_amounts : list Z) : bool :=
  match value with
  | Num z => existsb (Z.eqb z) top_amounts
  | _ => false
  end.

(** Shape of a frame produced by pandas: one dtype per label, rectangular
    rows, and no string stored in a numeric column. *)
Definition cell_fits (dt : dtype) (c : cell) : bool :=
  match dt, c with
  | numeric, Str _ => false
  | _, _ => true
  end.

Fixpoint row_fits (dts : list dtype) (row : list cell) : bool :=
  match dts, row with
  | [], [] => true
  | dt :: dts', c :: row' => cell_fits dt c && row_fits dts' row'
  | _, _ => false
  end.

Definition well_formed (df : DataFrame) : bool :=
  Nat.eqb (List.length (dtypes df)) (List.length (columns df))
  && forallb (row_fits (dtypes df)) (values df).

(** The amount column both exports resolve:
    ['total_amount' if 'total_amount' in df.columns else 'amount']. *)
Definition amount_column (df : DataFrame) : string :=
  if has_column df "total_amount" then "total_amount" else "amount".

(** [df['total_amount'].nlargest(3).tolist() if 'total_amount' in df.columns
     else df['amount'].nlargest(3).tolist()] *)
Definition top_amounts (df : DataFrame) : result (list Z) :=
  if has_column df "total_amount"
  then let* s := getitem df "total_amount" in nlargest 3 s
  else let* s := getitem df "amount" in nlargest 3 s.

(** ** matplotlib and reportlab: what the document renderer records *)

Inductive color : Type :=
| HexColor (hex : string)
| whitesmoke
| grey.

(** The current pyplot figure when [plt.savefig] is reached. *)
Inductive figure : Type :=
| Blank
| Bar (x height : list cell) (bar_color ylabel title : string)
| Pie (x labels : list cell) (autopct title : string).

Inductive style_name : Type := Title | Normal.

(** A [TableStyle] command; a coordinate is [(column, row)] and a negative
    index counts from the end. *)
Inductive style_cmd : Type :=
| BACKGROUND (start stop : Z * Z) (c : color)
| TEXTCOLOR (start stop : Z * Z) (c : color)
| ALIGN (start stop : Z * Z) (how : string)
| FONTNAME (start stop : Z * Z) (font : string)
| GRID (start stop : Z * Z) (weight : QArith_base.Q) (c : color).

Record Table : Type := {
  data : list (list cell);
  repeatRows : nat;
  style : list style_cmd
}.

(** [table.setStyle(TableStyle(cmds))] appends to the commands of the table. *)
Definition setStyle (t : Table) (cmds : list style_cmd) : Table :=
  {| data := data t; repeatRows := repeatRows t; style := (style t ++ cmds)%list |}.

Inductive flowable : Type :=
| Paragraph (text : string) (st : style_name)
| Spacer (width height : Z)
| Image (filename : string) (width height : Z)
| TableF (t : Table).

(** A flowable once drawn: an image is read from its file at build time. *)
Inductive drawn : Type :=
| DrawParagraph (text : string) (st : style_name)
| DrawSpacer (width height : Z)
| DrawImage (fig : figure) (width height : Z)
| DrawTable (t : Table).

Inductive file : Type :=
| PngFile (fig : figure)
| PdfFile (story : list drawn).

(** ** The file system and the monad of the document renderer *)

(** [build_raises] stands for the reasons outside the program for which
    [doc.build] raises (the output cannot be written, a layout error). *)
Record world : Type := {
  files : string -> option file;
  build_raises : bool
}.

Definition write_file (path : string) (f : file) (w : world) : world :=
  {| files := fun p => if String.eqb p path then Some f else files w p;
     build_raises := build_raises w |}.

Definition delete_file (path : string) (w : world) : world :=
  {| files := fun p => if String.eqb p path then None else files w p;
     build_raises := build_raises w |}.

(** A computation returns a result and the world it leaves, also when it
    raises. *)
Definition IO (A : Type) : Type := world -> result A * world.

Definition ret {A} (a : A) : IO A := fun w => (Ok a, w).

Definition bind {A B} (c : IO A) (k : A -> IO B) : IO B :=
  fun w =>
    match c w with
    | (Ok a, w') => k a w'
    | (Err e, w') => (Err e, w')
    end.

Definition lift {A} (r : result A) : IO A := fun w => (r, w).

Declare Scope io_scope.
Delimit Scope io_scope with io.
Notation "x <- c ;; k" := (bind c (fun x => k))
  (at level 61, c at next level, right associativity) : io_scope.
Notation "c ;; k" := (bind c (fun _ => k))
  (at level 61, right associativity) : io_scope.

(** [plt.savefig(path)] *)
Definition savefig (path : string) (fig : figure) : IO unit :=
  fun w => (Ok tt, write_file path (PngFile fig) w).

(** [os.path.exists(path)] *)
Definition path_exists (path : string) : IO bool :=
  fun w => (Ok (match files w path with Some _ => true | None => false end), w).

(** [os.remove(path)] *)
Definition os_remove (path : string) : IO unit :=
  fun w =>
    match files w path with
    | Some _ => (Ok tt, delete_file path w)
    | None => (Err (OSError path), w)
    end.

Definition draw (w : world) (f : flowable) : result drawn :=
  match f with
  | Paragraph text st => Ok (DrawParagraph text st)
  | Spacer wd ht => Ok (DrawSpacer wd ht)
  | Image filename wd ht =>
      match files w filename with
      | Some (PngFile fig) => Ok (DrawImage fig wd ht)
      | _ => Err (OSError filename)
      end
  | TableF t => Ok (DrawTable t)
  end.

(** [SimpleDocTemplate(pdf_file, ...).build(elements)] *)
Definition doc_build (pdf_file : string) (elements : list flowable) : IO unit :=
  fun w =>
    match mapM (draw w) elements with
    | Err e => (Err e, w)
    | Ok story =>
        if build_raises w then (Err (OSError pdf_file), w)
        else (Ok tt, write_file pdf_file (PdfFile story) w)
    end.

(** ** [create_pdf] *)

Local Open Scope io_scope.

(** The sum of the numbers of a column. *)
Fixpoint total (l : list cell) : Z :=
  match l with
  | [] => 0
  | Num z :: l' => z + total l'
  | _ :: l' => total l'
  end.

(** The wedge sizes [plt.pie] draws: numbers, none of them negative, with
    a positive sum.  On anything else (a negative size, a missing one, a
    string, sizes that sum to zero, no size at all) it raises
    [ValueError]. *)
Definition wedges_ok (x : list cell) : bool :=
  forallb (fun c => match c with Num z => (0 <=? z)%Z | _ => false end) x
  && (0 <? total x)%Z.

(** Lines 31-38: the plot drawn on the figure before it is saved. *)
Definition chart_figure (df : DataFrame) : result figure :=
  if has_column df "product_name" then
    let* x := getitem df "product_name" in
    let* height := (if has_column df "amount" then getitem df "amount"
                    else getitem df "total_amount") in
    Ok (Bar (s_data x) (s_data height) "skyblue" "Amount" "Sales by Product")
  else if has_column df "category" then
    let* x := getitem df "total_amount" in
    let* labels := getitem df "category" in
    if wedges_ok (s_data x)
    then Ok (Pie (s_data x) (s_data labels) "%1.1f%%" "Sales by Category")
    else Err ValueError
  else Ok Blank.

(** Lines 47-53: the style the table starts with. *)
Definition header_style : list style_cmd :=
  [ BACKGROUND (0, 0)%Z (-1, 0)%Z (HexColor "#4F81BD");
    TEXTCOLOR (0, 0)%Z (-1, 0)%Z whitesmoke;
    ALIGN (0, 0)%Z (-1, -1)%Z "CENTER";
    FONTNAME (0, 0)%Z (-1, 0)%Z "Helvetica-Bold";
    GRID (0, 0)%Z (-1, -1)%Z (QArith_base.Qmake 1 2) grey ].

(** Line 58: the position of the amount cell in a row. *)
Definition amount_loc (df : DataFrame) : result nat :=
  if has_column df "total_amount" then get_loc df "total_amount"
  else get_loc df "amount".

(** Line 59. *)
Definition bg_color (top : list Z) (i : nat) (value : cell) : color :=
  if cell_in value top then HexColor "#FFD700"
  else if Nat.eqb (i mod 2) 0 then HexColor "#DCE6F1"
  else whitesmoke.

(** Lines 57-60: the loop over [enumerate(df.values.tolist(), start=1)],
    as the commands it adds to the table. *)
Fixpoint row_styles (df : DataFrame) (top : list Z) (i : nat)
    (rows : list (list cell)) : result (list style_cmd) :=
  match rows with
  | [] => Ok []
  | row :: rows' =>
      let* j := amount_loc df in
      let* value := getitem_row row j in
      let* rest := row_styles df top (S i) rows' in
      Ok (BACKGROUND (0, Z.of_nat i)%Z (-1, Z.of_nat i)%Z (bg_color top i value) :: rest)
  end.

Definition create_pdf (df : DataFrame) (report_title : string) : IO string :=
  let pdf_file := "sales_report.pdf" in
  let elements :=
    [ Paragraph report_title Title;
      Paragraph "Generated using Streamlit & Python" Normal;
      Spacer 1 12 ] in
  let chart_file := "chart.png" in
  elements <-
    (if has_column df "amount" || has_column df "total_amount" then
       fig <- lift (chart_figure df) ;;
       savefig chart_file fig ;;
       ret (elements ++ [Image chart_file 400 200; Spacer 1 12])%list
     else ret elements) ;;
  let table :=
    {| data := map Str (columns df) :: values df;
       repeatRows := 1;
       style := header_style |} in
  top <- lift (top_amounts df) ;;
  cmds <- lift (row_styles df top 1 (values df)) ;;
  let table := setStyle table cmds in
  let elements := (elements ++ [TableF table])%list in
  doc_build pdf_file elements ;;
  ex <- path_exists chart_file ;;
  (if ex then os_remove chart_file else ret tt) ;;
  ret pdf_file.

(** What a reader of the produced document sees. *)

(** A row index of a style command, resolved against a table of [n] rows. *)
Definition resolve_index (n : nat) (k : Z) : Z :=
  if (k <? 0)%Z then (Z.of_nat n + k)%Z else k.

Definition covers_row (n : nat) (start stop : Z * Z) (r : nat) : bool :=
  (resolve_index n (snd start) <=? Z.of_nat r)%Z
  && (Z.of_nat r <=? resolve_index n (snd stop))%Z.

(** The background of row [r]: commands are painted in order, so the last
    [BACKGROUND] command that covers the row shows. *)
Fixpoint background_from (n : nat) (cmds : list style_cmd) (r : nat)
    (acc : option color) : option color :=
  match cmds with
  | [] => acc
  | BACKGROUND start stop c :: cmds' =>
      background_from n cmds' r (if covers_row n start stop r then Some c else acc)
  | _ :: cmds' => background_from n cmds' r acc
  end.

Definition row_background (t : Table) (r : nat) : option color :=
  background_from (List.length (data t)) (style t) r None.

Fixpoint story_table (story : list drawn) : option Table :=
  match story with
  | [] => None
  | DrawTable t :: _ => Some t
  | _ :: story' => story_table story'
  end.

Fixpoint story_images (story : list drawn) : list figure :=
  match story with
  | [] => []
  | DrawImage fig _ _ :: story' => fig :: story_images story'
  | _ :: story' => story_images story'
  end.

(** The document left at [path], if any. *)
Definition pdf_at (w : world) (path : string) : option (list drawn) :=
  match files w path with
  | Some (PdfFile story) => Some story
  | _ => None
  end.

Definition file_exists (w : world) (path : string) : bool :=
  match files w path with Some _ => true | None => false end.

(** 1-based positions of the data rows painted gold. *)
Definition gold : color := HexColor "#FFD700".

Definition color_eqb (a b : color) : bool :=
  match a, b with
  | HexColor x, HexColor y => String.eqb x y
  | whitesmoke, whitesmoke => true
  | grey, grey => true
  | _, _ => false
  end.

Definition is_gold (t : Table) (r : nat) : bool :=
  match row_background t r with
  | Some c => color_eqb c gold
  | None => false
  end.

Definition pdf_gold_rows (t : Table) : list nat :=
  filter (is_gold t) (seq 1 (List.length (data t) - 1)).

(** ** [create_excel_with_chart] *)

Record cell_format : Type := { bg_color_of : string; font_color : string }.

(** A cell range [[sheet, first_row, first_col, last_row, last_col]]. *)
Record cell_range : Type := {
  range_sheet : string;
  first_row : nat;
  first_col : nat;
  last_row : nat;
  last_col : nat
}.

Record chart_series : Type := {
  series_name : string;
  series_categories : cell_range;
  series_values : cell_range;
  series_fill : string
}.

Record chart : Type := {
  chart_type : string;
  chart_series_list : list chart_series;
  chart_title : string;
  x_axis : string;
  y_axis : string
}.

Record workbook : Type := {
  sheet_name : string;
  sheet_cells : list (list cell);
  row_formats : list (nat * cell_format);
  charts : list (string * chart)
}.

Definition format_top : cell_format :=
  {| bg_color_of := "#FFD700"; font_color := "black" |}.

(** Lines 82-84: the rows given [format_top], [i] counting from the
    argument. *)
Fixpoint set_rows (top : list Z) (i : nat) (vals : list cell) : list (nat * cell_format) :=
  match vals with
  | [] => []
  | val :: vals' =>
      if cell_in val top
      then (i + 1, format_top) :: set_rows top (S i) vals'
      else set_rows top (S i) vals'
  end.

Definition create_excel_with_chart (df : DataFrame) : result workbook :=
  let cells := map Str (columns df) :: values df in
  let* top := top_amounts df in
  let* last := iloc_last df in
  let formats := set_rows top 0 (s_data last) in
  let* col_amount :=
    (if has_column df "total_amount"
     then let* j := get_loc df "total_amount" in Ok (j + 1)
     else let* j := get_loc df "amount" in Ok (j + 1)) in
  let* col_name :=
    (if has_column df "category"
     then let* j := get_loc df "category" in Ok (j + 1)
     else let* j := get_loc df "product_name" in Ok (j + 1)) in
  let series :=
    {| series_name := "Sales Amount";
       series_categories :=
         {| range_sheet := "Report"; first_row := 1; first_col := col_name - 1;
            last_row := len df; last_col := col_name - 1 |};
       series_values :=
         {| range_sheet := "Report"; first_row := 1; first_col := col_amount - 1;
            last_row := len df; last_col := col_amount - 1 |};
       series_fill := "#4F81BD" |} in
  let ch :=
    {| chart_type := "column";
       chart_series_list := [series];
       chart_title := "Sales Chart";
       x_axis := "Category/Product";
       y_axis := "Amount" |} in
  Ok {| sheet_name := "Report";
        sheet_cells := cells;
        row_formats := formats;
        charts := [("H2", ch)] |}.

(** Sheet rows given the gold format. *)
Definition excel_gold_rows (wb : workbook) : list nat :=
  map fst (filter (fun rf => String.eqb (bg_color_of (snd rf)) "#FFD700") (row_formats wb)).

(** ** The SQL text (script level, lines 148-179) *)

Record Filter : Type := {
  start_date : string;          (* [str(start_date)] *)
  end_date : string;            (* [str(end_date)] *)
  selected_products : list string;
  selected_categories : list string
}.

Definition nl : string := String "010"%char EmptyString.

(** [sep.join(l)] *)
Fixpoint join (sep : string) (l : list string) : string :=
  match l with
  | [] => ""
  | [x] => x
  | x :: l' => x ++ sep ++ join sep l'
  end.

Definition quoted (p : string) : string := "'" ++ p ++ "'".

Definition nonempty {A} (l : list A) : bool :=
  match l with [] => false | _ => true end.

(** Lines 148-152. *)
Definition base_condition (f : Filter) : string :=
  let c := "sale_date BETWEEN '" ++ start_date f ++ "' AND '" ++ end_date f ++ "'" in
  let c := if nonempty (selected_products f)
           then c ++ " AND product_name IN ("
                  ++ join "," (map quoted (selected_products f)) ++ ")"
           else c in
  let c := if nonempty (selected_categories f)
           then c ++ " AND category IN ("
                  ++ join "," (map quoted (selected_categories f)) ++ ")"
           else c in
  c.

(** The three grouped reports share the layout of their text. *)
Definition grouped_select (key : string) : string :=
  nl ++ "        SELECT " ++ key
     ++ ", SUM(quantity) AS total_qty, SUM(quantity*unit_price) AS total_amount"
     ++ nl ++ "        FROM sales"
     ++ nl ++ "        WHERE ".

Definition daily_tail : string :=
  nl ++ "        GROUP BY sale_date"
     ++ nl ++ "        ORDER BY sale_date"
     ++ nl ++ "    ".

(** Lines 154-177: the [if]/[elif] chain; [None] when no branch binds
    [query]. *)
Definition assign_query (f : Filter) (query_option : string) : option string :=
  if String.eqb query_option "All Sales Data" then
    Some ("SELECT *, quantity*unit_price AS amount FROM sales WHERE "
            ++ base_condition f)
  else if String.eqb query_option "Sales by Product" then
    Some (grouped_select "product_name" ++ base_condition f
            ++ nl ++ "        GROUP BY product_name" ++ nl ++ "    ")
  else if String.eqb query_option "Daily Sales Summary" then
    Some (grouped_select "sale_date" ++ base_condition f ++ daily_tail)
  else if String.eqb query_option "Sales by Category" then
    Some (grouped_select "category" ++ base_condition f
            ++ nl ++ "        GROUP BY category" ++ nl ++ "    ")
  else None.

(** Line 179: the value of [query] where [fetch_data(query)] reads it. *)
Definition query (f : Filter) (query_option : string) : result string :=
  match assign_query f query_option with
  | Some q => Ok q
  | None => Err (NameError "query")
  end.

(** [s.endswith(suffix)] *)
Fixpoint ends_with (suffix s : string) : bool :=
  String.eqb suffix s
  || match s with
     | EmptyString => false
     | String _ s' => ends_with suffix s'
     end.

(** The substring test [needle in s]. *)
Fixpoint contains (needle s : string) : bool :=
  String.prefix needle s
  || match s with
     | EmptyString => false
     | String _ s' => contains needle s'
     end.

(** ** Sample frames *)

Module Samples.

Definition row3 (k : string) (a b : Z) : list cell := [Str k; Num a; Num b].

(** A "Sales by Category" result: the amount is the last column. *)
Definition by_category : DataFrame :=
  {| columns := ["category"; "total_qty"; "total_amount"];
     dtypes := [object; numeric; numeric];
     values := [ row3 "A" 1 10; row3 "B" 2 10; row3 "C" 3 10;
                 row3 "D" 4 5; row3 "E" 5 1 ] |}.

(** The same kind of frame with the quantity after the amount. *)
Definition amount_not_last : DataFrame :=
  {| columns := ["category"; "total_amount"; "total_qty"];
     dtypes := [object; numeric; numeric];
     values := [ row3 "A" 100 1; row3 "B" 50 2; row3 "C" 30 3;
                 row3 "D" 10 100 ] |}.

(** A "Daily Sales Summary" result. *)
Definition daily : DataFrame :=
  {| columns := ["sale_date"; "total_qty"; "total_amount"];
     dtypes := [object; numeric; numeric];
     values := [ row3 "2024-01-01" 2 40; row3 "2024-01-02" 1 15 ] |}.

(** A grouped result without rows. *)
Definition empty_by_category : DataFrame :=
  {| columns := ["category"; "total_qty"; "total_amount"];
     dtypes := [object; numeric; numeric];
     values := [] |}.


(** A frame with no amount-like column. *)
Definition no_amount : DataFrame :=
  {| columns := ["category"; "total_qty"];
     dtypes := [object; numeric];
     values := [ [Str "A"; Num 1] ] |}.

(** An "All Sales Data" result of a sales table that stores a
    total_amount of its own: both amount-like columns are present. *)
Definition both_amounts : DataFrame :=
  {| columns := ["product_name"; "total_amount"; "amount"];
     dtypes := [object; numeric; numeric];
     values := [ row3 "Pen" 9 10; row3 "Ink" 8 20; row3 "Pad" 7 30;
                 row3 "Cap" 6 40 ] |}.

(** A frame with a category and an [amount] column only. *)
Definition category_amount : DataFrame :=
  {| columns := ["category"; "amount"];
     dtypes := [object; numeric];
     values := [ [Str "A"; Num 7] ] |}.

(** A "Sales by Product" result read without rows: pandas has no value to
    infer a numeric dtype from. *)
Definition empty_untyped : DataFrame :=
  {| columns := ["product_name"; "total_qty"; "total_amount"];
     dtypes := [object; object; object];
     values := [] |}.

Definition a_filter : Filter :=
  {| start_date := "2024-01-01"; end_date := "2024-01-31";
     selected_products := ["Pen"; "Ink"]; selected_categories := [] |}.

(** An empty directory in which [doc.build] succeeds. *)
Definition clean : world := {| files := fun _ => None; build_raises := false |}.

(** An empty directory in which [doc.build] raises. *)
Definition failing_build : world := {| files := fun _ => None; build_raises := true |}.

End Samples.

(** ** Notions used to state the properties *)

(** How many entries of [l] are strictly greater than [v]. *)
Fixpoint count_gt (v : Z) (l : list Z) : nat :=
  match l with
  | [] => 0
  | x :: l' => (if (v <? x)%Z then 1 else 0) + count_gt v l'
  end.

(** [v] is one of the [n] largest entries of [l], ties included: it occurs
    in [l] and fewer than [n] entries are greater. *)
Definition among_largest (n : nat) (v : Z) (l : list Z) : bool :=
  existsb (Z.eqb v) l && (count_gt v l <? n).

Fixpoint descending (l : list Z) : Prop :=
  match l with
  | [] => True
  | x :: l' => (forall y, In y l' -> (y <= x)%Z) /\ descending l'
  end.

(** The amount cell of a row, as line 58 reads it. *)
Definition amount_of (df : DataFrame) (row : list cell) : result cell :=
  let* j := amount_loc df in
  getitem_row row j.

(** The numbers of the resolved amount column. *)
Definition amounts (df : DataFrame) : result (list Z) :=
  let* s := getitem df (amount_column df) in
  Ok (dropna (s_data s)).

(** The dtype of the resolved amount column, when the frame has one. *)
Definition amount_dtype (df : DataFrame) : option dtype :=
  match index_of (amount_column df) (columns df) with
  | Some j => nth_error (dtypes df) j
  | None => None
  end.

(** The labels of the frame are pairwise distinct: only then is [df[name]]
    one column and [get_loc(name)] one position. *)
Fixpoint distinct (l : list string) : bool :=
  match l with
  | [] => true
  | x :: l' => negb (existsb (String.eqb x) l') && distinct l'
  end.

Definition distinct_labels (df : DataFrame) : bool := distinct (columns df).

(** Every number of the frame is an integer that float64 holds exactly, so
    that [df.values] returns it unchanged whatever dtype the matrix takes. *)
Definition float64_exact (df : DataFrame) : bool :=
  forallb (forallb (fun c => match c with
                             | Num z => (Z.abs z <=? 2 ^ 53)%Z
                             | _ => true
                             end)) (values df).


(** The frame has a total_amount column whose cells [plt.pie] draws. *)
Definition pie_sizes_ok (df : DataFrame) : bool :=
  match getitem df "total_amount" with
  | Ok x => wedges_ok (s_data x)
  | Err _ => false
  end.

(** The cells of a bar chart's labels are all strings. *)
Definition all_strings (l : list cell) : bool :=
  forallb (fun c => match c with Str _ => true | _ => false end) l.

(** What [plt.bar] is given can be drawn as bars: the labels are strings
    and no height is a string. *)
Definition bar_plottable (df : DataFrame) : bool :=
  match getitem df "product_name",
        getitem df (if has_column df "amount" then "amount" else "total_amount") with
  | Ok x, Ok height =>
      all_strings (s_data x)
      && forallb (fun c => match c with Str _ => false | _ => true end) (s_data height)
  | _, _ => false
  end.


(** The table of the document left by [create_pdf]. *)
Definition document_table (w : world) : option Table :=
  match pdf_at w "sales_report.pdf" with
  | Some story => story_table story
  | None => None
  end.

Definition document_images (w : world) : list figure :=
  match pdf_at w "sales_report.pdf" with
  | Some story => story_images story
  | None => []
  end.

Definition light_blue : color := HexColor "#DCE6F1".

(** The table as line 46 builds it. *)
Definition base_table (df : DataFrame) : Table :=
  {| data := map Str (columns df) :: values df;
     repeatRows := 1;
     style := header_style |}.

(** The story of a document with a chart image. *)
Definition pdf_story (title : string) (fig : figure) (t : Table) : list drawn :=
  [ DrawParagraph title Title;
    DrawParagraph "Generated using Streamlit & Python" Normal;
    DrawSpacer 1 12;
    DrawImage fig 400 200;
    DrawSpacer 1 12;
    DrawTable t ].

(** The world a successful [create_pdf] leaves. *)
Definition rendered (w : world) (title : string) (fig : figure) (t : Table) : world :=
  delete_file "chart.png"
    (write_file "sales_report.pdf" (PdfFile (pdf_story title fig t))
       (write_file "chart.png" (PngFile fig) w)).


(** ** The rest of the script *)

(** Lines 233-239: the text of the "Dynamic KPIs" page. *)
Definition monthly_query (f : Filter) : string :=
  nl ++ "        SELECT DATE_FORMAT(sale_date, '%Y-%m') AS month, "
     ++ "SUM(quantity*unit_price) AS total_amount"
     ++ nl ++ "        FROM sales"
     ++ nl ++ "        WHERE " ++ base_condition f
     ++ nl ++ "        GROUP BY month"
     ++ nl ++ "        ORDER BY month"
     ++ nl ++ "    ".

(** Line 211: the column [render_dashboard] highlights the maximum of. *)
Definition highlight_col (df : DataFrame) : string :=
  if has_column df "amount" then "amount" else "total_amount".

(** A plotly express call, by its arguments. *)
Inductive px_figure : Type :=
| px_bar (x y : string) (text color color_continuous_scale : option string)
    (title : string)
| px_line (x y : string) (markers : bool) (title : string)
| px_pie (names values title : string).

(** Lines 199-207: the chart of [render_dashboard]. *)
Definition dashboard_chart (query_option : string) : px_figure :=
  if String.eqb query_option "Sales by Product" then
    px_bar "product_name" "total_amount" (Some "total_amount") (Some "total_amount")
      (Some "Blues") "Sales Amount by Product"
  else if String.eqb query_option "Daily Sales Summary" then
    px_line "sale_date" "total_amount" true "Daily Sales Amount"
  else if String.eqb query_option "Sales by Category" then
    px_pie "category" "total_amount" "Sales Amount by Category"
  else
    px_bar "product_name" "amount" None (Some "category") None
      "Sales Amount by Product".

(** The columns of the frame a plotly express call names. *)
Definition opt_list (o : option string) : list string :=
  match o with Some c => [c] | None => [] end.

Definition px_columns (fig : px_figure) : list string :=
  match fig with
  | px_bar x y text color _ _ => (x :: y :: opt_list text ++ opt_list color)%list
  | px_line x y _ _ => [x; y]
  | px_pie names values _ => [names; values]
  end.

(** The text of [s] before the first occurrence of [needle]; all of [s]
    when there is none. *)
Fixpoint before (needle s : string) : string :=
  if String.prefix needle s then EmptyString
  else match s with
       | EmptyString => EmptyString
       | String c s' => String c (before needle s')
       end.

(** The select list of a query text. *)
Definition select_list (q : string) : string := before "FROM sales" q.

(** The database of [fetch_data]: whether [get_connection] succeeds and
    what [pd.read_sql] answers to a text. *)
Record database : Type := {
  get_connection : result unit;
  read_sql : string -> result DataFrame
}.

(** Lines 105-109, threading the number of open connections. *)
Definition fetch_data (db : database) (query : string) (open_connections : nat)
  : result DataFrame * nat :=
  match get_connection db with
  | Err e => (Err e, open_connections)
  | Ok _ =>
      let open_connections := S open_connections in
      match read_sql db query with
      | Err e => (Err e, open_connections)
      | Ok df =>
          let open_connections := pred open_connections in   (* conn.close() *)
          (Ok df, open_connections)
      end
  end.

(** Line 179 after lines 154-177: [df = fetch_data(query)]. *)
Definition fetch_report (db : database) (f : Filter) (query_option : string)
    (open_connections : nat) : result DataFrame * nat :=
  match query f query_option with
  | Err e => (Err e, open_connections)
  | Ok q => fetch_data db q open_connections
  end.

Module Scenes.

(** A "Sales by Product" frame without rows that kept its numeric dtypes. *)
Definition empty_by_product : DataFrame :=
  {| columns := ["product_name"; "total_qty"; "total_amount"];
     dtypes := [object; numeric; numeric];
     values := [] |}.


(** A directory holding a chart image left by an earlier call, and a logo. *)
Definition stale_chart : world :=
  {| files := fun p => if String.eqb p "chart.png" then Some (PngFile Blank)
                       else if String.eqb p "logo.png" then Some (PngFile Blank)
                       else None;
     build_raises := false |}.

(** A database that answers every text with the sample grouped result. *)
Definition answering : database :=
  {| get_connection := Ok tt; read_sql := fun _ => Ok Samples.by_category |}.

(** A database that rejects every text. *)
Definition rejecting : database :=
  {| get_connection := Ok tt;
     read_sql := fun _ => Err (OSError "sales") |}.

Definition quote_filter : Filter :=
  {| start_date := "2024-01-01"; end_date := "2024-01-31";
     selected_products := ["Pen"; "O'Neil"]; selected_categories := ["Ink"] |}.

End Scenes.
(** * Properties *)

(** ** Results *)

Lemma mapM_length {A B} (f : A -> result B) l bs :
  mapM f l = Ok bs -> List.length bs = List.length l.
Proof.
  revert bs; induction l as [|a l IH]; simpl; intros bs H.
  - now inversion H.
  - destruct (f a); simpl in H; [|discriminate].
    destruct (mapM f l); simpl in H; [|discriminate].
    inversion H; subst; simpl. now rewrite (IH _ eq_refl).
Qed.

Lemma mapM_nth {A B} (f : A -> result B) l bs i a :
  mapM f l = Ok bs -> nth_error l i = Some a ->
  exists b, f a = Ok b /\ nth_error bs i = Some b.
Proof.
  revert bs i; induction l as [|x l IH]; simpl; intros bs i H Hi.
  - now destruct i.
  - destruct (f x) as [b|] eqn:Hx; simpl in H; [|discriminate].
    destruct (mapM f l) as [bs'|] eqn:Hl; simpl in H; [|discriminate].
    inversion H; subst; clear H.
    destruct i as [|i]; simpl in *.
    + inversion Hi; subst. eauto.
    + eapply IH; eauto.
Qed.

Lemma mapM_total {A B} (f : A -> result B) l :
  (forall a, In a l -> exists b, f a = Ok b) -> exists bs, mapM f l = Ok bs.
Proof.
  induction l as [|x l IH]; simpl; intros H.
  - eauto.
  - destruct (H x (or_introl eq_refl)) as [b ->].
    destruct IH as [bs ->]; [intros; apply H; auto|].
    simpl. eauto.
Qed.

(** ** The [n] largest entries *)

Lemma insert_desc_perm x l : Permutation (x :: l) (insert_desc x l).
Proof.
  induction l as [|y l IH]; simpl.
  - apply Permutation_refl.
  - destruct (y <=? x)%Z.
    + apply Permutation_refl.
    + eapply perm_trans; [apply perm_swap|]. now apply perm_skip.
Qed.

Lemma sort_desc_perm l : Permutation l (sort_desc l).
Proof.
  induction l as [|x l IH]; simpl.
  - constructor.
  - eapply perm_trans; [apply perm_skip, IH | apply insert_desc_perm].
Qed.

Lemma insert_desc_descending x l : descending l -> descending (insert_desc x l).
Proof.
  induction l as [|y l IH]; simpl.
  - intros _. split; [intros ? []|exact I].
  - intros [Hy Hl].
    destruct (Z.leb_spec y x) as [Hle|Hlt]; simpl.
    + split; [|split; assumption].
      intros z [<-|Hz]; [assumption|]. specialize (Hy z Hz). lia.
    + split; [|apply IH; assumption].
      intros z Hz.
      apply (Permutation_in z (Permutation_sym (insert_desc_perm x l))) in Hz.
      destruct Hz as [<-|Hz]; [lia|auto].
Qed.

Lemma sort_desc_descending l : descending (sort_desc l).
Proof.
  induction l as [|x l IH]; simpl; [exact I|].
  now apply insert_desc_descending.
Qed.

Lemma count_gt_perm v l l' : Permutation l l' -> count_gt v l = count_gt v l'.
Proof.
  induction 1; simpl; lia.
Qed.

Lemma count_gt_bound v l : (forall y, In y l -> (y <= v)%Z) -> count_gt v l = 0.
Proof.
  induction l as [|x l IH]; simpl; intros H; [reflexivity|].
  rewrite IH by auto.
  destruct (Z.ltb_spec v x) as [Hlt|]; [|reflexivity].
  specialize (H x (or_introl eq_refl)). lia.
Qed.

Lemma firstn_descending n : forall s v,
  descending s -> (In v (firstn n s) <-> In v s /\ count_gt v s < n).
Proof.
  induction n as [|n IH]; intros s v Hs.
  - simpl. split; [intros []|intros [_ H]; lia].
  - destruct s as [|a s]; simpl.
    + split; [intros []|intros [[] _]].
    + destruct Hs as [Ha Hs]. rewrite (IH s v Hs).
      split.
      * intros [<-|[Hin Hc]].
        -- split; [auto|]. rewrite Z.ltb_irrefl, count_gt_bound by assumption. lia.
        -- split; [auto|]. destruct (v <? a)%Z; lia.
      * intros [[<-|Hin] Hc]; [auto|].
        destruct (Z.eq_dec a v) as [->|Hne]; [auto|right].
        split; [assumption|].
        specialize (Ha v Hin).
        destruct (Z.ltb_spec v a); lia.
Qed.

(** The entries returned by [nlargest] are those of the column than which
    fewer than [n] entries are greater. *)
Lemma nlargest_spec n s top v :
  nlargest n s = Ok top ->
  (In v top <-> among_largest n v (dropna (s_data s)) = true).
Proof.
  unfold nlargest, among_largest. destruct (s_dtype s); [|discriminate].
  intros H; inversion H; subst; clear H.
  rewrite firstn_descending by apply sort_desc_descending.
  rewrite <- (count_gt_perm v _ _ (sort_desc_perm (dropna (s_data s)))).
  rewrite andb_true_iff, Nat.ltb_lt, existsb_exists.
  split.
  - intros [Hin Hc]. split; [|assumption].
    exists v. split; [|apply Z.eqb_refl].
    eapply Permutation_in; [apply Permutation_sym, sort_desc_perm|assumption].
  - intros [[x [Hin Hx]] Hc]. apply Z.eqb_eq in Hx; subst x.
    split; [|assumption].
    eapply Permutation_in; [apply sort_desc_perm|assumption].
Qed.

Lemma cell_in_spec value top :
  cell_in value top = true <-> exists z, value = Num z /\ In z top.
Proof.
  destruct value as [z| |]; simpl.
  - rewrite existsb_exists. split.
    + intros [x [Hin Hx]]. apply Z.eqb_eq in Hx; subst. eauto.
    + intros [z' [Hz Hin]]. inversion Hz; subst. exists z'. split; [assumption|apply Z.eqb_refl].
  - split; [discriminate|intros [z [H _]]; discriminate].
  - split; [discriminate|intros [z [H _]]; discriminate].
Qed.

(** ** Frames *)

Lemma index_of_absent name l :
  existsb (String.eqb name) l = false -> index_of name l = None.
Proof.
  induction l as [|c l IH]; simpl; [reflexivity|].
  destruct (String.eqb name c); simpl; [discriminate|].
  intros H. now rewrite IH.
Qed.

Lemma index_of_present name l :
  existsb (String.eqb name) l = true ->
  exists j, index_of name l = Some j /\ nth_error l j = Some name.
Proof.
  induction l as [|c l IH]; simpl; [discriminate|].
  destruct (String.eqb_spec name c) as [->|Hne]; simpl.
  - intros _. exists 0. auto.
  - intros H. destruct (IH H) as [j [-> Hj]]. exists (S j). auto.
Qed.

Lemma get_loc_absent df name :
  has_column df name = false -> get_loc df name = Err (KeyError name).
Proof.
  unfold has_column, get_loc. intros H. now rewrite index_of_absent.
Qed.

Lemma get_loc_present df name :
  has_column df name = true ->
  exists j, get_loc df name = Ok j /\ nth_error (columns df) j = Some name.
Proof.
  unfold has_column, get_loc. intros H.
  destruct (index_of_present _ _ H) as [j [-> Hj]]. eauto.
Qed.

Lemma get_loc_ok df name j :
  get_loc df name = Ok j -> has_column df name = true /\ j < List.length (columns df).
Proof.
  unfold get_loc, has_column.
  destruct (existsb (String.eqb name) (columns df)) eqn:E.
  - destruct (index_of_present _ _ E) as [k [-> Hk]].
    intros H; inversion H; subst. split; [reflexivity|].
    apply nth_error_Some. congruence.
  - now rewrite (index_of_absent _ _ E).
Qed.

Lemma row_fits_length dts row :
  row_fits dts row = true -> List.length row = List.length dts.
Proof.
  revert row; induction dts as [|dt dts IH]; intros [|c row]; simpl;
    try discriminate; [reflexivity|].
  rewrite andb_true_iff. intros [_ H]. now rewrite (IH _ H).
Qed.

Lemma well_formed_rows df row :
  well_formed df = true -> In row (values df) ->
  List.length row = List.length (columns df).
Proof.
  unfold well_formed. rewrite andb_true_iff, Nat.eqb_eq, forallb_forall.
  intros [Hd Hr] Hin. rewrite <- Hd. apply row_fits_length. auto.
Qed.

Lemma getitem_row_total row j :
  j < List.length row -> exists c, getitem_row row j = Ok c.
Proof.
  unfold getitem_row. intros H.
  destruct (nth_error row j) eqn:E; [eauto|].
  apply nth_error_None in E. lia.
Qed.

Lemma column_at_total df j :
  well_formed df = true -> j < List.length (columns df) ->
  exists s, column_at df j = Ok s
            /\ nth_error (dtypes df) j = Some (s_dtype s)
            /\ List.length (s_data s) = len df.
Proof.
  intros Hwf Hj. unfold column_at.
  assert (Hd : List.length (dtypes df) = List.length (columns df)).
  { unfold well_formed in Hwf. apply andb_true_iff in Hwf.
    now apply Nat.eqb_eq. }
  destruct (nth_error (dtypes df) j) as [dt|] eqn:E.
  2:{ apply nth_error_None in E. lia. }
  destruct (mapM_total (fun row => getitem_row row j) (values df)) as [bs Hbs].
  { intros row Hin. apply getitem_row_total.
    now rewrite (well_formed_rows df row Hwf Hin). }
  rewrite Hbs. simpl. eexists; repeat split; simpl.
  now apply mapM_length in Hbs.
Qed.

Lemma getitem_total df name :
  well_formed df = true -> has_column df name = true ->
  exists s, getitem df name = Ok s /\ List.length (s_data s) = len df.
Proof.
  intros Hwf Hc. unfold getitem.
  destruct (get_loc_present df name Hc) as [j [Hj Hn]]. rewrite Hj. simpl.
  destruct (column_at_total df j Hwf) as [s [Hs [_ Hl]]]; [|eauto].
  apply nth_error_Some. congruence.
Qed.

Lemma getitem_absent {df name} :
  has_column df name = false -> getitem df name = Err (KeyError name).
Proof.
  intros H. unfold getitem. now rewrite get_loc_absent.
Qed.

Lemma top_amounts_no_amount df :
  has_column df "total_amount" = false -> has_column df "amount" = false ->
  top_amounts df = Err (KeyError "amount").
Proof.
  intros Ht Ha. unfold top_amounts. rewrite Ht, (getitem_absent Ha). reflexivity.
Qed.

Lemma top_amounts_ok df top :
  top_amounts df = Ok top ->
  has_column df (amount_column df) = true
  /\ exists s, getitem df (amount_column df) = Ok s /\ nlargest 3 s = Ok top.
Proof.
  unfold top_amounts, amount_column.
  destruct (has_column df "total_amount") eqn:Ht.
  - destruct (getitem df "total_amount") as [s|] eqn:Hs; simpl; [|discriminate].
    intros H. split; [assumption|eauto].
  - destruct (has_column df "amount") eqn:Ha.
    + destruct (getitem df "amount") as [s|] eqn:Hs; simpl; [|discriminate].
      intros H. split; [reflexivity|eauto].
    + now rewrite (getitem_absent Ha).
Qed.

Lemma top_amounts_resolved df :
  top_amounts df = (let* s := getitem df (amount_column df) in nlargest 3 s).
Proof.
  unfold top_amounts, amount_column. now destruct (has_column df "total_amount").
Qed.

(** A well-formed frame with a numeric amount column has its top amounts. *)
Lemma top_amounts_total df :
  well_formed df = true -> amount_dtype df = Some numeric ->
  exists top, top_amounts df = Ok top.
Proof.
  intros Hwf Hdt. rewrite top_amounts_resolved.
  unfold amount_dtype in Hdt. unfold getitem, get_loc.
  destruct (index_of (amount_column df) (columns df)) as [j|] eqn:Hj; [|discriminate].
  simpl.
  destruct (column_at_total df j Hwf) as [s [Hs [Hd _]]].
  { assert (H : get_loc df (amount_column df) = Ok j) by (unfold get_loc; now rewrite Hj).
    now apply get_loc_ok in H. }
  rewrite Hs. simpl. unfold nlargest.
  assert (s_dtype s = numeric) by congruence.
  rewrite H. eauto.
Qed.

Lemma amount_loc_get_loc df : amount_loc df = get_loc df (amount_column df).
Proof.
  unfold amount_loc, amount_column. now destruct (has_column df "total_amount").
Qed.

(** ** The document renderer, step by step *)

Lemma has_amount_like df top :
  top_amounts df = Ok top ->
  has_column df "amount" || has_column df "total_amount" = true.
Proof.
  intros H.
  destruct (has_column df "total_amount") eqn:Ht; [apply orb_true_r|].
  destruct (has_column df "amount") eqn:Ha; [reflexivity|].
  now rewrite top_amounts_no_amount in H.
Qed.

(** A run of [create_pdf] that returns went through every step. *)
Lemma create_pdf_ok df title w r w' :
  create_pdf df title w = (Ok r, w') ->
  exists fig top cmds,
    chart_figure df = Ok fig
    /\ top_amounts df = Ok top
    /\ row_styles df top 1 (values df) = Ok cmds
    /\ build_raises w = false
    /\ r = "sales_report.pdf"
    /\ w' = rendered w title fig (setStyle (base_table df) cmds).
Proof.
  unfold create_pdf, bind, lift, ret.
  destruct (has_column df "amount" || has_column df "total_amount") eqn:Hamt.
  - destruct (chart_figure df) as [fig|e] eqn:Hfig; [|discriminate].
    unfold savefig.
    destruct (top_amounts df) as [top|e] eqn:Htop; [|discriminate].
    destruct (row_styles df top 1 (values df)) as [cmds|e] eqn:Hcmds; [|discriminate].
    unfold doc_build. cbn.
    destruct (build_raises w) eqn:Hb; [discriminate|].
    cbn. intros H. inversion H; subst; clear H.
    exists fig, top, cmds. repeat split; auto.
  - destruct (top_amounts df) as [top|e] eqn:Htop; [|discriminate].
    apply has_amount_like in Htop. congruence.
Qed.

(** Conversely the steps decide the run. *)
Lemma create_pdf_renders df title w fig top cmds :
  chart_figure df = Ok fig ->
  top_amounts df = Ok top ->
  row_styles df top 1 (values df) = Ok cmds ->
  build_raises w = false ->
  create_pdf df title w
  = (Ok "sales_report.pdf", rendered w title fig (setStyle (base_table df) cmds)).
Proof.
  intros Hfig Htop Hcmds Hb.
  unfold create_pdf, bind, lift, ret.
  rewrite (has_amount_like df top Htop), Hfig.
  unfold savefig. rewrite Htop, Hcmds.
  unfold doc_build. cbn. rewrite Hb. reflexivity.
Qed.

(** ** Row styles and the backgrounds they paint *)

Lemma row_styles_total df top j rows : forall i,
  amount_loc df = Ok j ->
  (forall row, In row rows -> j < List.length row) ->
  exists cmds, row_styles df top i rows = Ok cmds.
Proof.
  induction rows as [|row rows IH]; intros i Hj Hrows; simpl.
  - eauto.
  - rewrite Hj. simpl.
    destruct (getitem_row_total row j) as [c ->]; [apply Hrows; simpl; auto|].
    simpl. destruct (IH (S i) Hj) as [rest ->]; [intros; apply Hrows; simpl; auto|].
    simpl. eauto.
Qed.

Lemma covers_own_row n i r :
  covers_row n (0, Z.of_nat i)%Z (-1, Z.of_nat i)%Z r = Nat.eqb i r.
Proof.
  unfold covers_row, resolve_index. simpl.
  destruct (Z.ltb_spec (Z.of_nat i) 0); [lia|].
  destruct (Nat.eqb_spec i r) as [->|Hne].
  - rewrite Z.leb_refl. reflexivity.
  - destruct (Z.leb_spec (Z.of_nat i) (Z.of_nat r)); simpl; [|reflexivity].
    destruct (Z.leb_spec (Z.of_nat r) (Z.of_nat i)); [lia|reflexivity].
Qed.

Lemma background_from_app n a b r acc :
  background_from n (a ++ b)%list r acc
  = background_from n b r (background_from n a r acc).
Proof.
  revert acc; induction a as [|c a IH]; intros acc; simpl; [reflexivity|].
  destruct c; apply IH.
Qed.

(** The commands of the loop from position [i] on leave the rows before
    [i] as they were. *)
Lemma row_styles_before df top n rows : forall i cmds r acc,
  row_styles df top i rows = Ok cmds -> r < i ->
  background_from n cmds r acc = acc.
Proof.
  induction rows as [|row rows IH]; intros i cmds r acc H Hr; simpl in H.
  - inversion H; reflexivity.
  - destruct (amount_loc df) as [j|]; simpl in H; [|discriminate].
    destruct (getitem_row row j) as [v|]; simpl in H; [|discriminate].
    destruct (row_styles df top (S i) rows) as [rest|] eqn:Hrest; simpl in H;
      [|discriminate].
    inversion H; subst; clear H. simpl. rewrite covers_own_row.
    destruct (Nat.eqb_spec i r); [lia|].
    apply (IH (S i)); [assumption|lia].
Qed.

(** The row at offset [k] shows the colour the loop computed for it. *)
Lemma row_styles_paint df top n rows : forall i cmds k row acc,
  row_styles df top i rows = Ok cmds ->
  nth_error rows k = Some row ->
  exists value,
    amount_of df row = Ok value
    /\ background_from n cmds (i + k) acc = Some (bg_color top (i + k) value).
Proof.
  induction rows as [|row0 rows IH]; intros i cmds k row acc H Hk.
  - now destruct k.
  - simpl in H. unfold amount_of.
    destruct (amount_loc df) as [j|] eqn:Hj; simpl in H; [|discriminate].
    destruct (getitem_row row0 j) as [v0|] eqn:Hv0; simpl in H; [|discriminate].
    destruct (row_styles df top (S i) rows) as [rest|] eqn:Hrest; simpl in H;
      [|discriminate].
    inversion H; subst; clear H. simpl. rewrite covers_own_row.
    destruct k as [|k]; simpl in Hk.
    + inversion Hk; subst. exists v0. rewrite Nat.add_0_r, Nat.eqb_refl, Hv0.
      split; [reflexivity|].
      apply (row_styles_before df top n rows (S i)); [assumption|lia].
    + destruct (Nat.eqb_spec i (i + S k)); [lia|].
      destruct (IH (S i) rest k row acc Hrest Hk) as [value [Hval Hbg]].
      exists value. unfold amount_of in Hval. rewrite Hj in Hval.
      rewrite Nat.add_succ_r. auto.
Qed.

Lemma document_table_rendered w title fig t :
  document_table (rendered w title fig t) = Some t.
Proof. reflexivity. Qed.

Lemma document_images_rendered w title fig t :
  document_images (rendered w title fig t) = [fig].
Proof. reflexivity. Qed.

Lemma chart_removed w title fig t :
  file_exists (rendered w title fig t) "chart.png" = false.
Proof. reflexivity. Qed.

(** The background of every data row of the document. *)
Lemma document_row_background df title w r w' t k row :
  create_pdf df title w = (Ok r, w') ->
  document_table w' = Some t ->
  nth_error (values df) k = Some row ->
  exists top value,
    top_amounts df = Ok top
    /\ amount_of df row = Ok value
    /\ row_background t (S k) = Some (bg_color top (S k) value).
Proof.
  intros Hrun Ht Hk.
  destruct (create_pdf_ok _ _ _ _ _ Hrun)
    as (fig & top & cmds & Hfig & Htop & Hcmds & Hb & -> & ->).
  rewrite document_table_rendered in Ht. inversion Ht; subst; clear Ht.
  destruct (row_styles_paint df top
              (List.length (data (setStyle (base_table df) cmds)))
              (values df) 1 cmds k row
              (background_from (List.length (data (setStyle (base_table df) cmds)))
                 header_style (S k) None) Hcmds Hk)
    as [value [Hval Hbg]].
  exists top, value. split; [assumption|split; [assumption|]].
  unfold row_background, setStyle, base_table. cbn [style data].
  rewrite background_from_app. exact Hbg.
Qed.


(** The header row keeps the header background whatever the rows are. *)
Lemma header_row_background df title w r w' t :
  create_pdf df title w = (Ok r, w') ->
  document_table w' = Some t ->
  row_background t 0 = Some (HexColor "#4F81BD").
Proof.
  intros Hrun Ht.
  destruct (create_pdf_ok _ _ _ _ _ Hrun)
    as (fig & top & cmds & _ & _ & Hcmds & _ & _ & ->).
  rewrite document_table_rendered in Ht. inversion Ht; subst; clear Ht.
  unfold row_background, setStyle, base_table. cbn [style data].
  rewrite background_from_app.
  rewrite (row_styles_before df top _ (values df) 1 cmds 0 _ Hcmds); [reflexivity|lia].
Qed.

(** ** Highlighting in the document *)

Lemma is_gold_bg_color t r top value :
  row_background t r = Some (bg_color top r value) ->
  is_gold t r = cell_in value top.
Proof.
  unfold is_gold, bg_color. intros ->.
  destruct (cell_in value top); [reflexivity|].
  now destruct (Nat.eqb (r mod 2) 0).
Qed.

Lemma document_gold_iff_top df title w r w' t k row :
  create_pdf df title w = (Ok r, w') ->
  document_table w' = Some t ->
  nth_error (values df) k = Some row ->
  exists xs value,
    amounts df = Ok xs
    /\ amount_of df row = Ok value
    /\ (is_gold t (S k) = true
        <-> exists z, value = Num z /\ among_largest 3 z xs = true).
Proof.
  intros Hrun Ht Hk.
  destruct (document_row_background _ _ _ _ _ _ _ _ Hrun Ht Hk)
    as (top & value & Htop & Hval & Hbg).
  destruct (top_amounts_ok _ _ Htop) as [_ [s [Hs Hn]]].
  exists (dropna (s_data s)), value.
  split; [unfold amounts; now rewrite Hs|].
  split; [assumption|].
  rewrite (is_gold_bg_color _ _ _ _ Hbg), cell_in_spec.
  split; intros [z [Hz Hin]]; exists z; (split; [assumption|]);
    now apply (nlargest_spec 3 s top z Hn).
Qed.

(** In the document a data row is gold exactly when its amount is one of
    the three largest entries of the resolved amount column, on a frame
    whose numbers [df.values] keeps as they are. *)
Lemma document_top_by_value df title w r w' t k row :
  create_pdf df title w = (Ok r, w') ->
  document_table w' = Some t ->
  float64_exact df = true ->
  nth_error (values df) k = Some row ->
  exists xs value,
    amounts df = Ok xs
    /\ amount_of df row = Ok value
    /\ (is_gold t (S k) = true
        <-> exists z, value = Num z /\ among_largest 3 z xs = true).
Proof.
  intros Hrun Ht _ Hk. now apply (document_gold_iff_top df title w r w').
Qed.






(** On the tie example the three rows holding 10 are gold and the rows
    holding 5 and 1 are banded by their positions 4 and 5. *)
Example banding_after_three_gold_rows :
  exists t,
    document_table (snd (create_pdf Samples.by_category "Sales by Category"
                           Samples.clean))
    = Some t
    /\ map (row_background t) [1; 2; 3; 4; 5]
       = [Some gold; Some gold; Some gold; Some light_blue; Some whitesmoke].
Proof.
  eexists. split; reflexivity.
Qed.

(** ** The spreadsheet renderer, step by step *)

Lemma create_excel_ok df wb :
  create_excel_with_chart df = Ok wb ->
  exists top last,
    top_amounts df = Ok top
    /\ iloc_last df = Ok last
    /\ has_column df "category" || has_column df "product_name" = true
    /\ sheet_cells wb = map Str (columns df) :: values df
    /\ row_formats wb = set_rows top 0 (s_data last)
    /\ List.length (charts wb) = 1.
Proof.
  unfold create_excel_with_chart.
  destruct (top_amounts df) as [top|] eqn:Htop; simpl; [|discriminate].
  destruct (iloc_last df) as [last|] eqn:Hlast; simpl; [|discriminate].
  match goal with
  | |- rbind ?c _ = _ -> _ => destruct c as [ja|] eqn:Hja; simpl; [|discriminate]
  end.
  destruct (has_column df "category") eqn:Hc.
  - destruct (get_loc df "category") as [jn|]; simpl; [|discriminate].
    intros H; inversion H; subst; clear H. exists top, last. simpl. auto 10.
  - destruct (has_column df "product_name") eqn:Hp.
    + destruct (get_loc df "product_name") as [jn|]; simpl; [|discriminate].
      intros H; inversion H; subst; clear H. exists top, last. simpl. auto 10.
    + now rewrite (get_loc_absent _ _ Hp).
Qed.

Lemma iloc_last_total df :
  well_formed df = true -> columns df <> [] ->
  exists last, iloc_last df = Ok last /\ List.length (s_data last) = len df.
Proof.
  intros Hwf Hne. unfold iloc_last.
  destruct (List.length (columns df)) as [|j] eqn:E.
  - destruct (columns df); [congruence|discriminate].
  - destruct (column_at_total df j Hwf) as [s [Hs [_ Hl]]]; [lia|eauto].
Qed.

Lemma has_column_nonempty df name : has_column df name = true -> columns df <> [].
Proof.
  unfold has_column. now destruct (columns df).
Qed.

Lemma create_excel_total df top :
  well_formed df = true ->
  top_amounts df = Ok top ->
  has_column df "category" || has_column df "product_name" = true ->
  exists wb, create_excel_with_chart df = Ok wb.
Proof.
  intros Hwf Htop Hcat. unfold create_excel_with_chart. rewrite Htop. simpl.
  destruct (top_amounts_ok _ _ Htop) as [Hamt _].
  destruct (iloc_last_total df Hwf (has_column_nonempty _ _ Hamt)) as [last [-> _]].
  simpl.
  destruct (get_loc_present _ _ Hamt) as [ja [Hja _]].
  unfold amount_column in Hja.
  destruct (has_column df "total_amount"); rewrite Hja; simpl;
    (destruct (has_column df "category") eqn:Hc;
     [ destruct (get_loc_present _ _ Hc) as [jn [-> _]]
     | simpl in Hcat; destruct (get_loc_present _ _ Hcat) as [jn [-> _]] ]);
    simpl; eauto.
Qed.

Lemma set_rows_all_gold top vals : forall i,
  filter (fun rf => String.eqb (bg_color_of (snd rf)) "#FFD700") (set_rows top i vals)
  = set_rows top i vals.
Proof.
  induction vals as [|v vals IH]; intros i; simpl; [reflexivity|].
  destruct (cell_in v top); simpl; now rewrite IH.
Qed.

(** The sheet rows the loop formats, against any test of row numbers that
    agrees with the membership test on the iterated values. *)
Lemma set_rows_filter top (p : nat -> bool) vals : forall i,
  (forall k v, nth_error vals k = Some v -> p (i + k + 1) = cell_in v top) ->
  map fst (set_rows top i vals) = filter p (seq (i + 1) (List.length vals)).
Proof.
  induction vals as [|v vals IH]; intros i Hp; simpl; [reflexivity|].
  rewrite <- (Hp 0 v eq_refl), Nat.add_0_r.
  assert (Hrest : map fst (set_rows top (S i) vals)
                  = filter p (seq (S (i + 1)) (List.length vals))).
  { apply (IH (S i)). intros k v' Hk.
    rewrite <- (Hp (S k) v' Hk). f_equal. lia. }
  destruct (p (i + 1)); simpl; now rewrite Hrest.
Qed.

Lemma excel_gold_rows_spec df wb :
  create_excel_with_chart df = Ok wb ->
  exists top last,
    top_amounts df = Ok top
    /\ iloc_last df = Ok last
    /\ excel_gold_rows wb = map fst (set_rows top 0 (s_data last)).
Proof.
  intros H. destruct (create_excel_ok _ _ H) as (top & last & Ht & Hl & _ & _ & Hf & _).
  exists top, last. split; [assumption|split; [assumption|]].
  unfold excel_gold_rows. now rewrite Hf, set_rows_all_gold.
Qed.

(** Where the resolved amount column is the last column of the frame, and
    [df.values] keeps the numbers of the frame as they are, the two
    renderers paint the same rows gold. *)
Lemma renderers_agree_when_amount_last df title w r w' t wb j :
  create_pdf df title w = (Ok r, w') ->
  document_table w' = Some t ->
  create_excel_with_chart df = Ok wb ->
  float64_exact df = true ->
  amount_loc df = Ok j ->
  S j = List.length (columns df) ->
  excel_gold_rows wb = pdf_gold_rows t.
Proof.
  intros Hrun Ht Hx _ Hj Hlast.
  destruct (excel_gold_rows_spec _ _ Hx) as (top & last & Htop & Hl & ->).
  unfold iloc_last in Hl. rewrite <- Hlast in Hl.
  unfold column_at in Hl.
  destruct (nth_error (dtypes df) j) as [dt|]; [|discriminate].
  destruct (mapM (fun row => getitem_row row j) (values df)) as [vals|] eqn:Hvals;
    simpl in Hl; [|discriminate].
  inversion Hl; subst; clear Hl. simpl s_data.
  assert (Hn : List.length (data t) - 1 = List.length vals).
  { destruct (create_pdf_ok _ _ _ _ _ Hrun)
      as (fig & top' & cmds & _ & _ & _ & _ & _ & ->).
    rewrite document_table_rendered in Ht. inversion Ht; subst.
    simpl. rewrite (mapM_length _ _ _ Hvals). lia. }
  unfold pdf_gold_rows. rewrite Hn.
  apply (set_rows_filter top (is_gold t) vals 0).
  intros k v Hk. simpl.
  destruct (nth_error (values df) k) as [row|] eqn:Hrow.
  2:{ apply nth_error_None in Hrow. rewrite <- (mapM_length _ _ _ Hvals) in Hrow.
      assert (k < List.length vals) by (apply nth_error_Some; congruence). lia. }
  destruct (mapM_nth _ _ _ _ _ Hvals Hrow) as [b [Hb Hnb]].
  destruct (document_row_background _ _ _ _ _ _ _ _ Hrun Ht Hrow)
    as (top' & value & Htop' & Hval & Hbg).
  unfold amount_of in Hval. rewrite Hj in Hval. simpl in Hval.
  assert (value = v) by congruence. assert (top' = top) by congruence. subst.
  rewrite Nat.add_1_r. now apply is_gold_bg_color.
Qed.

(** ** The static chart *)

Lemma chart_figure_bar df :
  well_formed df = true ->
  has_column df "product_name" = true ->
  has_column df "amount" || has_column df "total_amount" = true ->
  exists x height,
    getitem df "product_name" = Ok x
    /\ getitem df (if has_column df "amount" then "amount" else "total_amount")
       = Ok height
    /\ chart_figure df
       = Ok (Bar (s_data x) (s_data height) "skyblue" "Amount" "Sales by Product").
Proof.
  intros Hwf Hp Hamt. unfold chart_figure. rewrite Hp.
  destruct (getitem_total df "product_name" Hwf Hp) as [x [Hx _]].
  rewrite Hx. simpl.
  destruct (has_column df "amount") eqn:Ha.
  - destruct (getitem_total df "amount" Hwf Ha) as [h [Hh _]].
    rewrite Hh. simpl. eauto.
  - simpl in Hamt.
    destruct (getitem_total df "total_amount" Hwf Hamt) as [h [Hh _]].
    rewrite Hh. simpl. eauto.
Qed.

Lemma chart_figure_pie df :
  well_formed df = true ->
  has_column df "product_name" = false ->
  has_column df "category" = true ->
  has_column df "total_amount" = true ->
  exists x labels,
    getitem df "total_amount" = Ok x
    /\ getitem df "category" = Ok labels
    /\ chart_figure df
       = if wedges_ok (s_data x)
         then Ok (Pie (s_data x) (s_data labels) "%1.1f%%" "Sales by Category")
         else Err ValueError.
Proof.
  intros Hwf Hp Hc Ht. unfold chart_figure. rewrite Hp, Hc.
  destruct (getitem_total df "total_amount" Hwf Ht) as [x [Hx _]].
  destruct (getitem_total df "category" Hwf Hc) as [l [Hl _]].
  rewrite Hx, Hl. simpl. eauto.
Qed.

Lemma chart_figure_blank df :
  has_column df "product_name" = false ->
  has_column df "category" = false ->
  chart_figure df = Ok Blank.
Proof.
  intros Hp Hc. unfold chart_figure. now rewrite Hp, Hc.
Qed.

(** The pie branch reads [total_amount] whatever the frame has. *)
Lemma chart_figure_pie_needs_total_amount df :
  has_column df "product_name" = false ->
  has_column df "category" = true ->
  has_column df "total_amount" = false ->
  chart_figure df = Err (KeyError "total_amount").
Proof.
  intros Hp Hc Ht. unfold chart_figure. now rewrite Hp, Hc, (getitem_absent Ht).
Qed.

Lemma row_styles_well_formed df top i :
  well_formed df = true ->
  top_amounts df = Ok top ->
  exists cmds, row_styles df top i (values df) = Ok cmds.
Proof.
  intros Hwf Htop.
  destruct (top_amounts_ok _ _ Htop) as [Hamt _].
  destruct (get_loc_present _ _ Hamt) as [j [Hj Hn]].
  apply (row_styles_total df top j).
  - now rewrite amount_loc_get_loc.
  - intros row Hin. rewrite (well_formed_rows df row Hwf Hin).
    apply nth_error_Some. congruence.
Qed.

(** A well-formed frame with a numeric amount column renders whenever the
    chart could be drawn and [doc.build] does not raise. *)
Lemma create_pdf_total df title w top fig :
  well_formed df = true ->
  top_amounts df = Ok top ->
  chart_figure df = Ok fig ->
  build_raises w = false ->
  exists cmds,
    row_styles df top 1 (values df) = Ok cmds
    /\ create_pdf df title w
       = (Ok "sales_report.pdf", rendered w title fig (setStyle (base_table df) cmds)).
Proof.
  intros Hwf Htop Hfig Hb.
  destruct (row_styles_well_formed df top 1 Hwf Htop) as [cmds Hcmds].
  exists cmds. split; [assumption|].
  now apply create_pdf_renders with (top := top).
Qed.

(** Without an amount-like column both renderers raise [KeyError]; the
    document renderer has written nothing by then. *)
Lemma create_pdf_no_amount df title w :
  has_column df "total_amount" = false -> has_column df "amount" = false ->
  create_pdf df title w = (Err (KeyError "amount"), w).
Proof.
  intros Ht Ha. unfold create_pdf, bind, lift, ret.
  now rewrite Ha, Ht, (top_amounts_no_amount df Ht Ha).
Qed.

Lemma create_excel_no_amount df :
  has_column df "total_amount" = false -> has_column df "amount" = false ->
  create_excel_with_chart df = Err (KeyError "amount").
Proof.
  intros Ht Ha. unfold create_excel_with_chart.
  now rewrite (top_amounts_no_amount df Ht Ha).
Qed.

(** When [create_pdf] returns, the scratch image is gone. *)
Lemma chart_removed_on_success df title w r w' :
  create_pdf df title w = (Ok r, w') -> file_exists w' "chart.png" = false.
Proof.
  intros Hrun.
  destruct (create_pdf_ok _ _ _ _ _ Hrun) as (fig & top & cmds & _ & _ & _ & _ & _ & ->).
  apply chart_removed.
Qed.

(** When [doc.build] raises, the exception leaves [create_pdf] with the
    scratch image still on disk. *)
Lemma chart_left_on_build_failure df title w fig top cmds :
  chart_figure df = Ok fig ->
  top_amounts df = Ok top ->
  row_styles df top 1 (values df) = Ok cmds ->
  build_raises w = true ->
  create_pdf df title w
  = (Err (OSError "sales_report.pdf"), write_file "chart.png" (PngFile fig) w).
Proof.
  intros Hfig Htop Hcmds Hb.
  unfold create_pdf, bind, lift, ret.
  rewrite (has_amount_like df top Htop), Hfig.
  unfold savefig. rewrite Htop, Hcmds.
  unfold doc_build. cbn. rewrite Hb. reflexivity.
Qed.

Lemma chart_figure_total df :
  well_formed df = true ->
  has_column df "amount" || has_column df "total_amount" = true ->
  has_column df "product_name" || negb (has_column df "category")
    || pie_sizes_ok df = true ->
  exists fig, chart_figure df = Ok fig.
Proof.
  intros Hwf Hamt Hcols.
  destruct (has_column df "product_name") eqn:Hp.
  - destruct (chart_figure_bar df Hwf Hp Hamt) as (x & h & _ & _ & ->). eauto.
  - destruct (has_column df "category") eqn:Hc.
    + simpl in Hcols. unfold pie_sizes_ok in Hcols.
      destruct (has_column df "total_amount") eqn:Ht.
      * destruct (chart_figure_pie df Hwf Hp Hc Ht) as (x & l & Hx & _ & ->).
        rewrite Hx in Hcols. rewrite Hcols. eauto.
      * now rewrite (getitem_absent Ht) in Hcols.
    + rewrite (chart_figure_blank df Hp Hc). eauto.
Qed.

(** In the pie branch the figure is drawn only from sizes [plt.pie]
    accepts. *)
Lemma chart_figure_pie_drawn df fig :
  has_column df "product_name" = false ->
  has_column df "category" = true ->
  chart_figure df = Ok fig ->
  pie_sizes_ok df = true.
Proof.
  intros Hp Hc. unfold chart_figure, pie_sizes_ok. rewrite Hp, Hc.
  destruct (getitem df "total_amount") as [x|]; simpl; [|discriminate].
  destruct (getitem df "category") as [l|]; simpl; [|discriminate].
  now destruct (wedges_ok (s_data x)).
Qed.

(** When the figure cannot be drawn the exception leaves [create_pdf] before
    anything is written. *)
Lemma create_pdf_chart_error df title w e :
  has_column df "amount" || has_column df "total_amount" = true ->
  chart_figure df = Err e ->
  create_pdf df title w = (Err e, w).
Proof.
  intros Hamt Hfig. unfold create_pdf, bind, lift, ret. now rewrite Hamt, Hfig.
Qed.

Lemma amount_dtype_has_column df dt :
  amount_dtype df = Some dt -> has_column df (amount_column df) = true.
Proof.
  unfold amount_dtype.
  destruct (index_of (amount_column df) (columns df)) as [j|] eqn:Hj; [|discriminate].
  intros _.
  assert (H : get_loc df (amount_column df) = Ok j) by (unfold get_loc; now rewrite Hj).
  now apply get_loc_ok in H.
Qed.

Lemma amount_dtype_amount_like df dt :
  amount_dtype df = Some dt ->
  has_column df "amount" || has_column df "total_amount" = true.
Proof.
  intros H. apply amount_dtype_has_column in H. unfold amount_column in H.
  destruct (has_column df "total_amount"); [apply orb_true_r|].
  now rewrite H.
Qed.

(** On an amount column of dtype object [nlargest] raises. *)
Lemma top_amounts_object df :
  well_formed df = true -> amount_dtype df = Some object ->
  top_amounts df
  = Err (TypeError "Cannot use method 'nlargest' with dtype object").
Proof.
  intros Hwf Hdt. rewrite top_amounts_resolved.
  unfold amount_dtype in Hdt. unfold getitem, get_loc.
  destruct (index_of (amount_column df) (columns df)) as [j|] eqn:Hj; [|discriminate].
  simpl.
  destruct (column_at_total df j Hwf) as [s [Hs [Hd _]]].
  { assert (H : get_loc df (amount_column df) = Ok j) by (unfold get_loc; now rewrite Hj).
    now apply get_loc_ok in H. }
  rewrite Hs. simpl. unfold nlargest.
  assert (H : s_dtype s = object) by congruence.
  now rewrite H.
Qed.

(** Whatever the chart does, [create_pdf] raises on an amount column of
    dtype object. *)
Lemma create_pdf_object_amount df title w :
  well_formed df = true -> amount_dtype df = Some object ->
  exists e, fst (create_pdf df title w) = Err e.
Proof.
  intros Hwf Hdt.
  destruct (create_pdf df title w) as [[r|e] w'] eqn:E; [|simpl; eauto].
  destruct (create_pdf_ok _ _ _ _ _ E) as (fig & top & cmds & _ & Htop & _).
  rewrite (top_amounts_object df Hwf Hdt) in Htop. discriminate.
Qed.

(** ** Which column decides the highlight *)

(** The tie example: amounts 10, 10, 10, 5, 1 in the last column.  Both
    renderers paint the three rows holding 10 and leave the other two. *)
Example ties_are_all_highlighted :
  (exists wb, create_excel_with_chart Samples.by_category = Ok wb
              /\ excel_gold_rows wb = [1; 2; 3])
  /\ (exists t, document_table (snd (create_pdf Samples.by_category "Sales by Category"
                                       Samples.clean)) = Some t
                /\ pdf_gold_rows t = [1; 2; 3]).
Proof.
  split; eexists; split; reflexivity.
Qed.

(** Without total_amount and amount both renderers stop at the lookup of
    amount. *)
Example no_amount_like_column_raises :
  create_excel_with_chart Samples.no_amount = Err (KeyError "amount")
  /\ create_pdf Samples.no_amount "All Sales Data" Samples.clean
     = (Err (KeyError "amount"), Samples.clean).
Proof.
  split.
  - now apply create_excel_no_amount.
  - now apply create_pdf_no_amount.
Qed.

(** C1.  On a frame whose columns are category, total_amount, total_qty the
    resolved amount column is total_amount and its three largest entries
    are 100, 50, 30; the spreadsheet loop nevertheless tests the cells of
    the last column (1, 2, 3, 100) and so formats sheet row 4 only, the row
    with the smallest amount. *)
Theorem spreadsheet_highlight_reads_last_column :
  amount_column Samples.amount_not_last = "total_amount"
  /\ top_amounts Samples.amount_not_last = Ok [100; 50; 30]%Z
  /\ amounts Samples.amount_not_last = Ok [100; 50; 30; 10]%Z
  /\ (exists last, iloc_last Samples.amount_not_last = Ok last
                   /\ s_data last = [Num 1; Num 2; Num 3; Num 100])
  /\ (exists wb, create_excel_with_chart Samples.amount_not_last = Ok wb
                 /\ excel_gold_rows wb = [4]).
Proof.
  repeat split; try reflexivity; eexists; split; reflexivity.
Qed.

(** C2.  On the same frame the spreadsheet marks row 4, whose amount 10 is
    not one of the three largest amounts, and leaves row 1 unmarked, whose
    amount 100 is the largest. *)
Theorem spreadsheet_top_rows_not_by_amount :
  exists wb xs,
    create_excel_with_chart Samples.amount_not_last = Ok wb
    /\ amounts Samples.amount_not_last = Ok xs
    /\ nth_error (values Samples.amount_not_last) 3 = Some [Str "D"; Num 10; Num 100]
    /\ among_largest 3 10 xs = false
    /\ In 4 (excel_gold_rows wb)
    /\ nth_error (values Samples.amount_not_last) 0 = Some [Str "A"; Num 100; Num 1]
    /\ among_largest 3 100 xs = true
    /\ ~ In 1 (excel_gold_rows wb).
Proof.
  do 2 eexists. repeat split; try reflexivity.
  - simpl. auto.
  - simpl. intros [H|[]]. discriminate.
Qed.

(** C4.  On the same frame the spreadsheet paints row 4 gold and the
    document paints rows 1, 2 and 3. *)
Theorem renderers_highlight_different_rows :
  exists wb t,
    create_excel_with_chart Samples.amount_not_last = Ok wb
    /\ document_table (snd (create_pdf Samples.amount_not_last "Sales by Category"
                              Samples.clean)) = Some t
    /\ excel_gold_rows wb = [4]
    /\ pdf_gold_rows t = [1; 2; 3].
Proof.
  do 2 eexists. repeat split; reflexivity.
Qed.

(** ** The chart of the document *)


(** The bar chart takes amount before total_amount, the highlight
    total_amount before amount. *)
Example bar_chart_prefers_amount :
  chart_figure Samples.both_amounts
  = Ok (Bar [Str "Pen"; Str "Ink"; Str "Pad"; Str "Cap"]
            [Num 10; Num 20; Num 30; Num 40] "skyblue" "Amount" "Sales by Product")
  /\ top_amounts Samples.both_amounts = Ok [9; 8; 7]%Z.
Proof.
  split; reflexivity.
Qed.

(** With a category and an amount column only, the pie branch raises before
    anything is written. *)
Example pie_chart_needs_total_amount :
  create_pdf Samples.category_amount "Sales by Category" Samples.clean
  = (Err (KeyError "total_amount"), Samples.clean).
Proof.
  reflexivity.
Qed.



(** ** A frame without rows *)

(** C7, as stated, fails on a grouped result without rows that kept its
    numeric dtypes: the workbook has a chart, and the document renderer
    raises in [plt.pie], which has no size to draw. *)
Lemma empty_table_still_charted :
  len Samples.empty_by_category = 0
  /\ well_formed Samples.empty_by_category = true
  /\ (exists wb, create_excel_with_chart Samples.empty_by_category = Ok wb
                 /\ sheet_cells wb = [[Str "category"; Str "total_qty"; Str "total_amount"]]
                 /\ List.length (charts wb) = 1
                 /\ charts wb <> [])
  /\ (exists e,
        create_pdf Samples.empty_by_category "Sales by Category" Samples.clean
        = (Err e, Samples.clean)).
Proof.
  repeat split; try reflexivity.
  - eexists. repeat split; try reflexivity. discriminate.
  - exists ValueError. reflexivity.
Qed.

(** The frame pandas builds from a result without rows has dtype object in
    every column: both renderers raise on it. *)
Example empty_result_raises :
  create_excel_with_chart Samples.empty_untyped
  = Err (TypeError "Cannot use method 'nlargest' with dtype object")
  /\ fst (create_pdf Samples.empty_untyped "Sales by Product" Samples.clean)
     = Err (TypeError "Cannot use method 'nlargest' with dtype object").
Proof.
  split; reflexivity.
Qed.

(** C7, amended.  For a well-formed frame without rows and with distinct
    labels: when its amount column has dtype object, as in the frame pandas
    builds from an empty result, both renderers raise; when it is numeric,
    the spreadsheet renderer, given category or product_name, produces the
    workbook with the header row only, no formatted row and, still, its one
    chart; the document renderer raises in the pie branch (category without
    product_name), and otherwise, when [doc.build] does not raise, produces
    the document with a header-only table that carries the header style
    alone, no gold row and, still, the image of the figure. *)
Theorem empty_table_rendering df title w :
  well_formed df = true ->
  distinct_labels df = true ->
  values df = [] ->
  (amount_dtype df = Some object ->
   create_excel_with_chart df
   = Err (TypeError "Cannot use method 'nlargest' with dtype object")
   /\ exists e, fst (create_pdf df title w) = Err e)
  /\ (amount_dtype df = Some numeric ->
      (has_column df "category" || has_column df "product_name" = true ->
       exists wb,
         create_excel_with_chart df = Ok wb
         /\ sheet_cells wb = [map Str (columns df)]
         /\ row_formats wb = []
         /\ List.length (charts wb) = 1)
      /\ (has_column df "product_name" = false ->
          has_column df "category" = true ->
          exists e, create_pdf df title w = (Err e, w))
      /\ (has_column df "product_name" || negb (has_column df "category") = true ->
          build_raises w = false ->
          exists fig t,
            chart_figure df = Ok fig
            /\ fst (create_pdf df title w) = Ok "sales_report.pdf"
            /\ document_table (snd (create_pdf df title w)) = Some t
            /\ data t = [map Str (columns df)]
            /\ style t = header_style
            /\ pdf_gold_rows t = []
            /\ document_images (snd (create_pdf df title w)) = [fig])).
Proof.
  intros Hwf _ Hrows. split.
  - intros Hdt. split.
    + unfold create_excel_with_chart. now rewrite (top_amounts_object df Hwf Hdt).
    + now apply create_pdf_object_amount.
  - intros Hdt.
    destruct (top_amounts_total df Hwf Hdt) as [top Htop].
    pose proof (has_amount_like df top Htop) as Hamt.
    split; [|split].
    + intros Hcat.
      destruct (create_excel_total df top Hwf Htop Hcat) as [wb Hwb].
      exists wb. split; [assumption|].
      destruct (create_excel_ok _ _ Hwb) as (top' & last & _ & Hlast & _ & Hc & Hf & Hch).
      destruct (top_amounts_ok _ _ Htop) as [Ha _].
      destruct (iloc_last_total df Hwf (has_column_nonempty _ _ Ha)) as [last' [Hl' Hlen]].
      assert (last' = last) by congruence. subst last'.
      unfold len in Hlen. rewrite Hrows in Hlen, Hc.
      destruct (s_data last) eqn:E; [|discriminate].
      rewrite Hf. auto.
    + intros Hp Hc.
      destruct (has_column df "total_amount") eqn:Ht.
      * destruct (chart_figure_pie df Hwf Hp Hc Ht) as (x & l & Hx & _ & Hfig).
        destruct (getitem_total df "total_amount" Hwf Ht) as [x' [Hx' Hlen]].
        assert (x' = x) by congruence. subst x'.
        unfold len in Hlen. rewrite Hrows in Hlen.
        destruct (s_data x) eqn:E; [|discriminate].
        rewrite ?E in Hfig. simpl in Hfig.
        exists ValueError.
        apply create_pdf_chart_error; [now rewrite Ht|assumption].
      * exists (KeyError "total_amount").
        apply create_pdf_chart_error; [now rewrite Ht|].
        now apply chart_figure_pie_needs_total_amount.
    + intros Hcols Hb.
      assert (Hcols' : has_column df "product_name" || negb (has_column df "category")
                       || pie_sizes_ok df = true) by now rewrite Hcols.
      destruct (chart_figure_total df Hwf Hamt Hcols') as [fig Hfig].
      assert (Hcmds : row_styles df top 1 (values df) = Ok []) by now rewrite Hrows.
      rewrite (create_pdf_renders df title w fig top [] Hfig Htop Hcmds Hb).
      exists fig, (setStyle (base_table df) []).
      unfold setStyle, base_table, pdf_gold_rows. cbn [data style fst snd].
      rewrite Hrows. cbn. auto 10.
Qed.

Lemma empty_table_rendering_witness :
  (exists wb,
     create_excel_with_chart Scenes.empty_by_product = Ok wb
     /\ sheet_cells wb = [[Str "product_name"; Str "total_qty"; Str "total_amount"]]
     /\ row_formats wb = []
     /\ List.length (charts wb) = 1)
  /\ fst (create_pdf Scenes.empty_by_product "Sales by Product" Samples.clean)
     = Ok "sales_report.pdf".
Proof.
  destruct (empty_table_rendering Scenes.empty_by_product "Sales by Product"
              Samples.clean eq_refl eq_refl eq_refl) as [_ Hnum].
  destruct (Hnum eq_refl) as (Hsheet & _ & Hdoc).
  split.
  - apply Hsheet. reflexivity.
  - destruct (Hdoc eq_refl eq_refl) as (fig & t & _ & H & _). exact H.
Defined.

(** ** The scratch image *)

(** C8.  With a grouped result in a directory where [doc.build] raises,
    [create_pdf] raises too and [chart.png], absent before the call, is
    left behind. *)
Theorem chart_left_when_build_raises :
  file_exists Samples.failing_build "chart.png" = false
  /\ fst (create_pdf Samples.by_category "Sales by Category" Samples.failing_build)
     = Err (OSError "sales_report.pdf")
  /\ file_exists (snd (create_pdf Samples.by_category "Sales by Category"
                         Samples.failing_build)) "chart.png" = true.
Proof.
  repeat split; reflexivity.
Qed.

(** The same happens without any failure of [doc.build] when [nlargest]
    rejects the dtype of the amount column, after the figure was saved. *)
Example chart_left_when_nlargest_raises :
  fst (create_pdf Samples.empty_untyped "Sales by Product" Samples.clean)
  = Err (TypeError "Cannot use method 'nlargest' with dtype object")
  /\ file_exists (snd (create_pdf Samples.empty_untyped "Sales by Product"
                         Samples.clean)) "chart.png" = true.
Proof.
  split; reflexivity.
Qed.

(** ** The chart of the workbook *)

(** C10.  A frame with an amount-like column and neither category nor
    product_name makes the spreadsheet renderer raise; when the frame is
    well formed and its amount column numeric the exception is the
    [KeyError] of the lookup of product_name for the category axis. *)
Theorem spreadsheet_requires_category_column df :
  has_column df "amount" || has_column df "total_amount" = true ->
  has_column df "category" = false ->
  has_column df "product_name" = false ->
  (exists e, create_excel_with_chart df = Err e)
  /\ (well_formed df = true -> amount_dtype df = Some numeric ->
      create_excel_with_chart df = Err (KeyError "product_name")).
Proof.
  intros Hamt Hc Hp.
  assert (Hchain : forall top last ja,
            top_amounts df = Ok top -> iloc_last df = Ok last ->
            get_loc df (amount_column df) = Ok ja ->
            create_excel_with_chart df = Err (KeyError "product_name")).
  { intros top last ja Htop Hlast Hja. unfold create_excel_with_chart.
    rewrite Htop, Hlast. simpl. unfold amount_column in Hja.
    destruct (has_column df "total_amount"); rewrite Hja; simpl;
      now rewrite Hc, (get_loc_absent _ _ Hp). }
  split.
  - destruct (create_excel_with_chart df) as [wb|e] eqn:E; [|eauto].
    destruct (create_excel_ok _ _ E) as (_ & _ & _ & _ & Hcat & _).
    rewrite Hc, Hp in Hcat. discriminate.
  - intros Hwf Hdt.
    destruct (top_amounts_total df Hwf Hdt) as [top Htop].
    destruct (top_amounts_ok _ _ Htop) as [Ha _].
    destruct (iloc_last_total df Hwf (has_column_nonempty _ _ Ha)) as [last [Hlast _]].
    destruct (get_loc_present _ _ Ha) as [ja [Hja _]].
    now apply (Hchain top last ja).
Qed.

Lemma spreadsheet_requires_category_column_witness :
  create_excel_with_chart Samples.daily = Err (KeyError "product_name").
Proof.
  apply (proj2 (spreadsheet_requires_category_column Samples.daily
                  eq_refl eq_refl eq_refl) eq_refl eq_refl).
Defined.

(** ** The SQL text *)

Lemma ends_with_refl s : ends_with s s = true.
Proof.
  destruct s; simpl; [reflexivity|].
  now rewrite Ascii.eqb_refl, String.eqb_refl.
Qed.

Lemma ends_with_append suffix a : forall s,
  ends_with suffix s = true -> ends_with suffix (a ++ s) = true.
Proof.
  induction a as [|c a IH]; intros s H; simpl; [assumption|].
  rewrite (IH s H). apply orb_true_r.
Qed.

Lemma query_known f query_option q :
  query f query_option = Ok q ->
  In query_option
    ["All Sales Data"; "Sales by Product"; "Daily Sales Summary"; "Sales by Category"].
Proof.
  unfold query, assign_query.
  destruct (String.eqb_spec query_option "All Sales Data"); [simpl; auto|].
  destruct (String.eqb_spec query_option "Sales by Product"); [simpl; auto|].
  destruct (String.eqb_spec query_option "Daily Sales Summary"); [simpl; auto|].
  destruct (String.eqb_spec query_option "Sales by Category"); [simpl; auto 6|].
  discriminate.
Qed.

(** C5, as stated, fails on the report type "Monthly Sales Trend": the
    chain of lines 154-177 ends without raising and binds nothing, and the
    exception is the [NameError] of the read of [query] on line 179. *)
Lemma unknown_report_type_builds_nothing :
  assign_query Samples.a_filter "Monthly Sales Trend" = None
  /\ query Samples.a_filter "Monthly Sales Trend" = Err (NameError "query")
  /\ fetch_report Scenes.answering Samples.a_filter "Monthly Sales Trend" 0
     = (Err (NameError "query"), 0).
Proof.
  repeat split.
Qed.

(** C5, amended.  For a report type other than the four known ones, whatever
    the filter, the read of [query] on line 179 raises [NameError]; this
    happens before [fetch_data] is entered, so no connection is opened and
    the database is not asked, whatever it would answer. *)
Theorem unknown_report_type_fails f query_option :
  query_option <> "All Sales Data" ->
  query_option <> "Sales by Product" ->
  query_option <> "Daily Sales Summary" ->
  query_option <> "Sales by Category" ->
  query f query_option = Err (NameError "query")
  /\ forall db n,
       fetch_report db f query_option n = (Err (NameError "query"), n).
Proof.
  intros H1 H2 H3 H4.
  assert (Hq : query f query_option = Err (NameError "query")).
  { unfold query, assign_query.
    apply String.eqb_neq in H1, H2, H3, H4.
    now rewrite H1, H2, H3, H4. }
  split; [assumption|].
  intros db n. unfold fetch_report. now rewrite Hq.
Qed.

Lemma unknown_report_type_fails_witness :
  query Samples.a_filter "Monthly Sales Trend" = Err (NameError "query")
  /\ fetch_report Scenes.rejecting Samples.a_filter "Monthly Sales Trend" 3
     = (Err (NameError "query"), 3).
Proof.
  destruct (unknown_report_type_fails Samples.a_filter "Monthly Sales Trend")
    as [Hq Hf]; try discriminate.
  split; [exact Hq|apply Hf].
Defined.

(** For every filter the text built for "Daily Sales Summary" selects
    sale_date with the two sums, and ends with the clause GROUP BY sale_date
    followed by the clause ORDER BY sale_date, which carries no DESC.  What
    the database returns for the text is not part of the script. *)
Theorem daily_summary_grouped_and_ordered f :
  exists q,
    query f "Daily Sales Summary" = Ok q
    /\ q = grouped_select "sale_date" ++ base_condition f ++ daily_tail
    /\ String.prefix
         (nl ++ "        SELECT sale_date, SUM(quantity) AS total_qty, "
             ++ "SUM(quantity*unit_price) AS total_amount"
             ++ nl ++ "        FROM sales" ++ nl ++ "        WHERE ") q = true
    /\ ends_with
         (nl ++ "        GROUP BY sale_date"
             ++ nl ++ "        ORDER BY sale_date" ++ nl ++ "    ") q = true
    /\ contains "DESC" daily_tail = false.
Proof.
  eexists. split; [reflexivity|]. split; [reflexivity|].
  split.
  { unfold grouped_select. cbn.
    match goal with |- String.prefix _ ?s = true => now destruct s end. }
  split; [|reflexivity].
  apply ends_with_append, ends_with_append, ends_with_refl.
Qed.

(** * Further properties of the script *)

(** ** Texts *)

Lemma prefix_refl s : String.prefix s s = true.
Proof.
  induction s as [|c s IH]; simpl; [reflexivity|].
  destruct (ascii_dec c c); [assumption|congruence].
Qed.

Lemma prefix_append_r p : forall s t,
  String.prefix p s = true -> String.prefix p (s ++ t) = true.
Proof.
  induction p as [|c p IH]; intros s t H.
  - now destruct (s ++ t).
  - destruct s as [|d s]; simpl in *; [discriminate|].
    destruct (ascii_dec c d); [now apply IH|discriminate].
Qed.

Lemma prefix_append p s : String.prefix p (p ++ s) = true.
Proof.
  induction p as [|c p IH]; simpl.
  - now destruct s.
  - destruct (ascii_dec c c); [assumption|congruence].
Qed.

Lemma contains_prefix n s : String.prefix n s = true -> contains n s = true.
Proof.
  intros H. destruct s; simpl in *; rewrite H; reflexivity.
Qed.

Lemma contains_append_l n a : forall s,
  contains n s = true -> contains n (a ++ s) = true.
Proof.
  induction a as [|c a IH]; intros s H; simpl; [assumption|].
  rewrite (IH s H). apply orb_true_r.
Qed.

Lemma contains_append_r n : forall s t,
  contains n s = true -> contains n (s ++ t) = true.
Proof.
  induction s as [|c s IH]; intros t H.
  - simpl in H. rewrite orb_false_r in H.
    apply contains_prefix. now apply (prefix_append_r n "" t).
  - change (contains n (String c (s ++ t)) = true).
    cbn [contains] in *. apply orb_true_iff in H. apply orb_true_iff.
    destruct H as [H|H].
    + left. now apply (prefix_append_r n (String c s) t).
    + right. now apply IH.
Qed.

Lemma contains_middle a n b : contains n (a ++ n ++ b) = true.
Proof.
  apply contains_append_l, contains_prefix, prefix_append.
Qed.

Lemma contains_join_quoted p l :
  In p l -> contains (quoted p) (join "," (map quoted l)) = true.
Proof.
  induction l as [|x l IH]; intros Hin; [destruct Hin|].
  destruct l as [|y l].
  - destruct Hin as [->|[]]. apply contains_prefix, prefix_refl.
  - change (contains (quoted p)
              (quoted x ++ "," ++ join "," (map quoted (y :: l))) = true).
    destruct Hin as [->|Hin].
    + apply contains_prefix, prefix_append.
    + apply contains_append_l, contains_append_l. now apply IH.
Qed.

(** ** The filter in the SQL text *)

(** The condition of every filter starts with the inclusive date range. *)
Theorem base_condition_starts_with_dates f :
  String.prefix
    ("sale_date BETWEEN '" ++ start_date f ++ "' AND '" ++ end_date f ++ "'")
    (base_condition f) = true.
Proof.
  unfold base_condition.
  destruct (nonempty (selected_products f)), (nonempty (selected_categories f)).
  - apply prefix_append_r, prefix_append_r, prefix_refl.
  - apply prefix_append_r, prefix_refl.
  - apply prefix_append_r, prefix_refl.
  - apply prefix_refl.
Qed.

(** Every selected product and category is written between quotes exactly
    as it is, whatever characters it holds. *)
Theorem selected_names_are_copied_verbatim f p :
  (In p (selected_products f) -> contains (quoted p) (base_condition f) = true)
  /\ (In p (selected_categories f) -> contains (quoted p) (base_condition f) = true).
Proof.
  unfold base_condition. split; intros Hin.
  - destruct (selected_products f) as [|x l] eqn:E; [destruct Hin|].
    cbn [nonempty].
    assert (H : contains (quoted p)
                  (("sale_date BETWEEN '" ++ start_date f ++ "' AND '"
                      ++ end_date f ++ "'")
                   ++ " AND product_name IN ("
                   ++ join "," (map quoted (x :: l)) ++ ")") = true).
    { apply contains_append_l, contains_append_l, contains_append_r.
      now apply contains_join_quoted. }
    destruct (nonempty (selected_categories f)); [|exact H].
    now apply contains_append_r.
  - destruct (selected_categories f) as [|x l] eqn:E; [destruct Hin|].
    cbn [nonempty].
    apply contains_append_l, contains_append_l, contains_append_r.
    now apply contains_join_quoted.
Qed.

Lemma selected_names_are_copied_verbatim_witness :
  contains "'O'Neil'" (base_condition Scenes.quote_filter) = true.
Proof.
  apply (proj1 (selected_names_are_copied_verbatim Scenes.quote_filter "O'Neil")).
  simpl. auto.
Defined.


(** Every report that is built filters by the condition: the text holds
    [WHERE] followed by the whole condition of the filter. *)
Theorem every_report_applies_filter f query_option q :
  query f query_option = Ok q ->
  contains ("WHERE " ++ base_condition f) q = true.
Proof.
  unfold query, assign_query.
  destruct (String.eqb query_option "All Sales Data").
  { intros H; inversion H; subst; clear H.
    exact (contains_append_l ("WHERE " ++ base_condition f)
             "SELECT *, quantity*unit_price AS amount FROM sales "
             ("WHERE " ++ base_condition f)
             (contains_prefix _ _ (prefix_refl _))). }
  destruct (String.eqb query_option "Sales by Product").
  { intros H; inversion H; subst; clear H.
    exact (contains_middle
             (nl ++ "        SELECT product_name"
                 ++ ", SUM(quantity) AS total_qty, SUM(quantity*unit_price) AS total_amount"
                 ++ nl ++ "        FROM sales" ++ nl ++ "        ")
             ("WHERE " ++ base_condition f)
             (nl ++ "        GROUP BY product_name" ++ nl ++ "    ")). }
  destruct (String.eqb query_option "Daily Sales Summary").
  { intros H; inversion H; subst; clear H.
    exact (contains_middle
             (nl ++ "        SELECT sale_date"
                 ++ ", SUM(quantity) AS total_qty, SUM(quantity*unit_price) AS total_amount"
                 ++ nl ++ "        FROM sales" ++ nl ++ "        ")
             ("WHERE " ++ base_condition f)
             daily_tail). }
  destruct (String.eqb query_option "Sales by Category").
  { intros H; inversion H; subst; clear H.
    exact (contains_middle
             (nl ++ "        SELECT category"
                 ++ ", SUM(quantity) AS total_qty, SUM(quantity*unit_price) AS total_amount"
                 ++ nl ++ "        FROM sales" ++ nl ++ "        ")
             ("WHERE " ++ base_condition f)
             (nl ++ "        GROUP BY category" ++ nl ++ "    ")). }
  discriminate.
Qed.

Lemma every_report_applies_filter_witness :
  contains ("WHERE " ++ base_condition Samples.a_filter)
    (grouped_select "category" ++ base_condition Samples.a_filter
       ++ nl ++ "        GROUP BY category" ++ nl ++ "    ") = true.
Proof.
  apply (every_report_applies_filter Samples.a_filter "Sales by Category").
  reflexivity.
Defined.

(** The text of the "Dynamic KPIs" page filters by the same condition and
    ends with GROUP BY month followed by ORDER BY month, without DESC. *)
Theorem monthly_query_filtered_and_ordered f :
  contains ("WHERE " ++ base_condition f) (monthly_query f) = true
  /\ ends_with
       (nl ++ "        GROUP BY month" ++ nl ++ "        ORDER BY month"
           ++ nl ++ "    ") (monthly_query f) = true
  /\ contains "AS month" (select_list (monthly_query f)) = true.
Proof.
  split; [|split].
  - exact (contains_middle
             (nl ++ "        SELECT DATE_FORMAT(sale_date, '%Y-%m') AS month, "
                 ++ "SUM(quantity*unit_price) AS total_amount"
                 ++ nl ++ "        FROM sales" ++ nl ++ "        ")
             ("WHERE " ++ base_condition f)
             (nl ++ "        GROUP BY month" ++ nl ++ "        ORDER BY month"
                 ++ nl ++ "    ")).
  - unfold monthly_query.
    do 8 apply ends_with_append. apply ends_with_refl.
  - reflexivity.
Qed.

(** ** The select list against the readers of the frame *)

(** In each of the four reports the amount is the last item of the select
    list, under the name the exports look for. *)
Theorem amount_is_selected_last f query_option q :
  query f query_option = Ok q ->
  ends_with "AS amount " (select_list q) = true
  \/ ends_with ("AS total_amount" ++ nl ++ "        ") (select_list q) = true.
Proof.
  unfold query, assign_query.
  destruct (String.eqb query_option "All Sales Data").
  { intros H; inversion H; subst; clear H. left. reflexivity. }
  destruct (String.eqb query_option "Sales by Product").
  { intros H; inversion H; subst; clear H. right. reflexivity. }
  destruct (String.eqb query_option "Daily Sales Summary").
  { intros H; inversion H; subst; clear H. right. reflexivity. }
  destruct (String.eqb query_option "Sales by Category").
  { intros H; inversion H; subst; clear H. right. reflexivity. }
  discriminate.
Qed.

Lemma amount_is_selected_last_witness :
  ends_with "AS amount "
    (select_list ("SELECT *, quantity*unit_price AS amount FROM sales WHERE "
                    ++ base_condition Samples.a_filter)) = true
  \/ ends_with ("AS total_amount" ++ nl ++ "        ")
       (select_list ("SELECT *, quantity*unit_price AS amount FROM sales WHERE "
                       ++ base_condition Samples.a_filter)) = true.
Proof.
  apply (amount_is_selected_last Samples.a_filter "All Sales Data").
  reflexivity.
Defined.

(** Every column the dashboard chart of a report names is named in the
    select list of that report, or the list selects every column. *)
Theorem dashboard_chart_columns_are_selected f query_option q c :
  query f query_option = Ok q ->
  In c (px_columns (dashboard_chart query_option)) ->
  contains c (select_list q) = true \/ contains "*, " (select_list q) = true.
Proof.
  unfold query, assign_query, dashboard_chart.
  destruct (String.eqb_spec query_option "All Sales Data") as [->|].
  { intros H; inversion H; subst; clear H. intros _. right. reflexivity. }
  destruct (String.eqb query_option "Sales by Product").
  { intros H; inversion H; subst; clear H. simpl.
    intros [<-|[<-|[<-|[<-|[]]]]]; left; reflexivity. }
  destruct (String.eqb query_option "Daily Sales Summary").
  { intros H; inversion H; subst; clear H. simpl.
    intros [<-|[<-|[]]]; left; reflexivity. }
  destruct (String.eqb query_option "Sales by Category").
  { intros H; inversion H; subst; clear H. simpl.
    intros [<-|[<-|[]]]; left; reflexivity. }
  discriminate.
Qed.

Lemma dashboard_chart_columns_are_selected_witness :
  contains "sale_date"
    (select_list (grouped_select "sale_date" ++ base_condition Samples.a_filter
                    ++ daily_tail)) = true
  \/ contains "*, "
       (select_list (grouped_select "sale_date" ++ base_condition Samples.a_filter
                       ++ daily_tail)) = true.
Proof.
  apply (dashboard_chart_columns_are_selected Samples.a_filter "Daily Sales Summary").
  - reflexivity.
  - simpl. auto.
Defined.

(** ** The document renderer and the file system *)

Lemma create_pdf_world df title w :
  snd (create_pdf df title w) = w
  \/ (exists fig, snd (create_pdf df title w) = write_file "chart.png" (PngFile fig) w)
  \/ (exists fig t, snd (create_pdf df title w) = rendered w title fig t).
Proof.
  unfold create_pdf, bind, lift, ret.
  destruct (has_column df "amount" || has_column df "total_amount") eqn:Hamt.
  - destruct (chart_figure df) as [fig|e]; [|left; reflexivity].
    unfold savefig.
    destruct (top_amounts df) as [top|e]; [|right; left; eexists; reflexivity].
    destruct (row_styles df top 1 (values df)) as [cmds|e];
      [|right; left; eexists; reflexivity].
    unfold doc_build. cbn.
    destruct (build_raises w); cbn.
    + right; left; eexists; reflexivity.
    + right; right. do 2 eexists. reflexivity.
  - destruct (top_amounts df) as [top|e] eqn:Htop; [|left; reflexivity].
    apply has_amount_like in Htop. congruence.
Qed.

(** Whether it returns or raises, [create_pdf] leaves every file other than
    [chart.png] and [sales_report.pdf] as it found it. *)
Theorem create_pdf_touches_only_its_files df title w path :
  path <> "chart.png" ->
  path <> "sales_report.pdf" ->
  files (snd (create_pdf df title w)) path = files w path.
Proof.
  intros Hc Hp.
  apply String.eqb_neq in Hc, Hp.
  destruct (create_pdf_world df title w) as [->|[[fig ->]|[fig [t ->]]]].
  - reflexivity.
  - simpl. now rewrite Hc.
  - unfold rendered. simpl. now rewrite Hc, Hp.
Qed.

Lemma create_pdf_touches_only_its_files_witness :
  files (snd (create_pdf Samples.by_category "Sales by Category" Scenes.stale_chart))
    "logo.png"
  = Some (PngFile Blank).
Proof.
  rewrite (create_pdf_touches_only_its_files Samples.by_category "Sales by Category"
             Scenes.stale_chart "logo.png"); [reflexivity| |]; discriminate.
Defined.

Lemma chart_removed_on_success_witness :
  file_exists Scenes.stale_chart "chart.png" = true
  /\ file_exists
       (snd (create_pdf Samples.by_category "Sales by Category" Scenes.stale_chart))
       "chart.png" = false.
Proof.
  split; [reflexivity|].
  apply (chart_removed_on_success Samples.by_category "Sales by Category"
           Scenes.stale_chart "sales_report.pdf").
  reflexivity.
Defined.




(** Rendering the same frame again in the directory a first rendering left
    returns the same path and leaves every file as the first did. *)
Theorem create_pdf_idempotent df title w r w1 :
  create_pdf df title w = (Ok r, w1) ->
  fst (create_pdf df title w1) = Ok r
  /\ forall path, files (snd (create_pdf df title w1)) path = files w1 path.
Proof.
  intros Hrun.
  destruct (create_pdf_ok _ _ _ _ _ Hrun)
    as (fig & top & cmds & Hfig & Htop & Hcmds & Hb & -> & ->).
  assert (Hb1 : build_raises (rendered w title fig (setStyle (base_table df) cmds))
                = false) by exact Hb.
  rewrite (create_pdf_renders df title _ fig top cmds Hfig Htop Hcmds Hb1).
  split; [reflexivity|].
  intros path. unfold rendered. simpl.
  destruct (String.eqb path "chart.png"); [reflexivity|].
  destruct (String.eqb path "sales_report.pdf"); reflexivity.
Qed.

Lemma create_pdf_idempotent_witness :
  fst (create_pdf Samples.by_category "Sales by Category"
         (snd (create_pdf Samples.by_category "Sales by Category" Samples.clean)))
  = Ok "sales_report.pdf".
Proof.
  apply (create_pdf_idempotent Samples.by_category "Sales by Category" Samples.clean
           "sales_report.pdf" _ eq_refl).
Defined.

(** ** Missing columns *)

(** Without total_amount and without amount both renderers raise
    [KeyError('amount')]; the document renderer has then written no file. *)
Theorem no_amount_like_column_is_a_key_error df title w :
  has_column df "total_amount" = false ->
  has_column df "amount" = false ->
  create_excel_with_chart df = Err (KeyError "amount")
  /\ create_pdf df title w = (Err (KeyError "amount"), w).
Proof.
  intros Ht Ha. split.
  - now apply create_excel_no_amount.
  - now apply create_pdf_no_amount.
Qed.

Lemma no_amount_like_column_is_a_key_error_witness :
  create_excel_with_chart Samples.no_amount = Err (KeyError "amount")
  /\ create_pdf Samples.no_amount "All Sales Data" Scenes.stale_chart
     = (Err (KeyError "amount"), Scenes.stale_chart).
Proof.
  apply (no_amount_like_column_is_a_key_error Samples.no_amount "All Sales Data"
           Scenes.stale_chart); reflexivity.
Defined.

(** A frame with category and amount but neither product_name nor
    total_amount makes the document renderer raise [KeyError('total_amount')]
    in the pie branch, before any file is written, while the spreadsheet
    renderer, when the frame is well formed with distinct labels and its
    amount numeric, returns a workbook for it. *)
Theorem pie_branch_requires_total_amount df title w :
  has_column df "product_name" = false ->
  has_column df "category" = true ->
  has_column df "total_amount" = false ->
  has_column df "amount" = true ->
  create_pdf df title w = (Err (KeyError "total_amount"), w)
  /\ (well_formed df = true -> distinct_labels df = true ->
      amount_dtype df = Some numeric ->
      exists wb, create_excel_with_chart df = Ok wb).
Proof.
  intros Hp Hc Ht Ha. split.
  - unfold create_pdf, bind, lift, ret.
    now rewrite Ha, (chart_figure_pie_needs_total_amount df Hp Hc Ht).
  - intros Hwf _ Hdt.
    destruct (top_amounts_total df Hwf Hdt) as [top Htop].
    apply (create_excel_total df top Hwf Htop). now rewrite Hc.
Qed.

Lemma pie_branch_requires_total_amount_witness :
  create_pdf Samples.category_amount "Sales by Category" Samples.clean
  = (Err (KeyError "total_amount"), Samples.clean)
  /\ exists wb, create_excel_with_chart Samples.category_amount = Ok wb.
Proof.
  destruct (pie_branch_requires_total_amount Samples.category_amount
              "Sales by Category" Samples.clean eq_refl eq_refl eq_refl eq_refl)
    as [Hdoc Hsheet].
  split; [exact Hdoc|]. apply Hsheet; reflexivity.
Defined.

(** ** Highlighted rows *)

Lemma document_top_by_value_witness :
  exists t,
    document_table (snd (create_pdf Samples.by_category "Sales by Category"
                           Samples.clean)) = Some t
    /\ exists xs value,
         amounts Samples.by_category = Ok xs
         /\ amount_of Samples.by_category [Str "D"; Num 4; Num 5] = Ok value
         /\ (is_gold t 4 = true
             <-> exists z, value = Num z /\ among_largest 3 z xs = true).
Proof.
  eexists. split; [reflexivity|].
  apply (document_top_by_value Samples.by_category "Sales by Category" Samples.clean
           "sales_report.pdf"
           (snd (create_pdf Samples.by_category "Sales by Category" Samples.clean))
           _ 3 [Str "D"; Num 4; Num 5] eq_refl eq_refl eq_refl eq_refl).
Defined.

Lemma renderers_agree_when_amount_last_witness :
  exists wb t,
    create_excel_with_chart Samples.by_category = Ok wb
    /\ document_table (snd (create_pdf Samples.by_category "Sales by Category"
                              Samples.clean)) = Some t
    /\ excel_gold_rows wb = pdf_gold_rows t.
Proof.
  do 2 eexists. split; [reflexivity|]. split; [reflexivity|].
  apply (renderers_agree_when_amount_last Samples.by_category "Sales by Category"
           Samples.clean "sales_report.pdf"
           (snd (create_pdf Samples.by_category "Sales by Category" Samples.clean))
           _ _ 2 eq_refl eq_refl eq_refl eq_refl eq_refl eq_refl).
Defined.

Lemma header_row_background_witness :
  exists t,
    document_table (snd (create_pdf Samples.by_category "Sales by Category"
                           Samples.clean)) = Some t
    /\ row_background t 0 = Some (HexColor "#4F81BD").
Proof.
  eexists. split; [reflexivity|].
  apply (header_row_background Samples.by_category "Sales by Category" Samples.clean
           "sales_report.pdf"
           (snd (create_pdf Samples.by_category "Sales by Category" Samples.clean))
           _ eq_refl eq_refl).
Defined.

Lemma set_rows_length top vals : forall i,
  List.length (set_rows top i vals)
  = List.length (filter (fun c => cell_in c top) vals).
Proof.
  induction vals as [|v vals IH]; intros i; simpl; [reflexivity|].
  destruct (cell_in v top); simpl; now rewrite IH.
Qed.

Lemma filter_cell_in_dropna top vals :
  List.length (filter (fun c => cell_in c top) vals)
  = List.length (filter (fun z => existsb (Z.eqb z) top) (dropna vals)).
Proof.
  induction vals as [|v vals IH]; simpl; [reflexivity|].
  destruct v as [z| |]; simpl; [|assumption|assumption].
  destruct (existsb (Z.eqb z) top); simpl; now rewrite IH.
Qed.

Lemma filter_length_perm {A} (p : A -> bool) l l' :
  Permutation l l' -> List.length (filter p l) = List.length (filter p l').
Proof.
  induction 1; simpl.
  - reflexivity.
  - destruct (p x); simpl; now rewrite IHPermutation.
  - destruct (p x), (p y); reflexivity.
  - congruence.
Qed.

Lemma filter_all {A} (p : A -> bool) l :
  (forall x, In x l -> p x = true) -> filter p l = l.
Proof.
  induction l as [|a l IH]; simpl; intros H; [reflexivity|].
  rewrite (H a (or_introl eq_refl)), IH; auto.
Qed.

(** At least as many entries of a list are among its [n] largest as the
    list of the [n] largest is long. *)
Lemma members_of_largest n xs :
  Nat.min n (List.length xs)
  <= List.length (filter (fun z => existsb (Z.eqb z) (firstn n (sort_desc xs))) xs).
Proof.
  set (top := firstn n (sort_desc xs)).
  rewrite (filter_length_perm _ _ _ (sort_desc_perm xs)).
  rewrite <- (firstn_skipn n (sort_desc xs)) at 1.
  rewrite filter_app, length_app.
  fold top. rewrite (filter_all _ top).
  - unfold top. rewrite length_firstn.
    rewrite <- (Permutation_length (sort_desc_perm xs)). lia.
  - intros x Hx. apply existsb_exists. exists x. split; [assumption|apply Z.eqb_refl].
Qed.

(** On a frame whose numbers [df.values] keeps as they are, the document
    paints at least three rows gold when the amount column holds at least
    three numbers, and as many as there are numbers otherwise. *)
Theorem document_highlights_at_least_three df title w r w' t xs :
  create_pdf df title w = (Ok r, w') ->
  document_table w' = Some t ->
  float64_exact df = true ->
  amounts df = Ok xs ->
  Nat.min 3 (List.length xs) <= List.length (pdf_gold_rows t).
Proof.
  intros Hrun Ht _ Hxs.
  destruct (create_pdf_ok _ _ _ _ _ Hrun)
    as (fig & top & cmds & _ & Htop & _ & _ & _ & Hw').
  destruct (top_amounts_ok _ _ Htop) as [Hamt [s [Hs Hn]]].
  unfold amounts in Hxs. rewrite Hs in Hxs. simpl in Hxs.
  inversion Hxs; subst xs; clear Hxs.
  assert (Htopeq : top = firstn 3 (sort_desc (dropna (s_data s)))).
  { unfold nlargest in Hn. destruct (s_dtype s); [|discriminate]. congruence. }
  (* the column, as the cells of the rows *)
  unfold getitem in Hs.
  destruct (get_loc df (amount_column df)) as [j|] eqn:Hj; simpl in Hs; [|discriminate].
  unfold column_at in Hs.
  destruct (nth_error (dtypes df) j) as [dt|]; [|discriminate].
  destruct (mapM (fun row => getitem_row row j) (values df)) as [vals|] eqn:Hvals;
    simpl in Hs; [|discriminate].
  inversion Hs; subst s; clear Hs. simpl s_data in *.
  assert (Hn' : List.length (data t) - 1 = List.length vals).
  { subst w'. rewrite document_table_rendered in Ht. inversion Ht; subst.
    simpl. rewrite (mapM_length _ _ _ Hvals). lia. }
  assert (Hrows : map fst (set_rows top 0 vals) = pdf_gold_rows t).
  { unfold pdf_gold_rows. rewrite Hn'.
    apply (set_rows_filter top (is_gold t) vals 0).
    intros k v Hk. simpl.
    destruct (nth_error (values df) k) as [row|] eqn:Hrow.
    2:{ apply nth_error_None in Hrow. rewrite <- (mapM_length _ _ _ Hvals) in Hrow.
        assert (k < List.length vals) by (apply nth_error_Some; congruence). lia. }
    destruct (mapM_nth _ _ _ _ _ Hvals Hrow) as [b [Hb Hnb]].
    destruct (document_row_background _ _ _ _ _ _ _ _ Hrun Ht Hrow)
      as (top' & value & Htop' & Hval & Hbg).
    unfold amount_of in Hval. rewrite amount_loc_get_loc, Hj in Hval. simpl in Hval.
    assert (value = v) by congruence. assert (top' = top) by congruence. subst value top'.
    rewrite Nat.add_1_r. now apply is_gold_bg_color. }
  rewrite <- Hrows, length_map, set_rows_length, filter_cell_in_dropna, Htopeq.
  apply members_of_largest.
Qed.

Lemma document_highlights_at_least_three_witness :
  exists t,
    document_table (snd (create_pdf Samples.by_category "Sales by Category"
                           Samples.clean)) = Some t
    /\ Nat.min 3 (List.length [10; 10; 10; 5; 1]%Z) <= List.length (pdf_gold_rows t).
Proof.
  eexists. split; [reflexivity|].
  apply (document_highlights_at_least_three Samples.by_category "Sales by Category"
           Samples.clean "sales_report.pdf"
           (snd (create_pdf Samples.by_category "Sales by Category" Samples.clean))
           _ [10; 10; 10; 5; 1]%Z eq_refl eq_refl eq_refl eq_refl).
Defined.

(** ** The workbook *)

Lemma get_loc_nth df name j :
  get_loc df name = Ok j -> nth_error (columns df) j = Some name.
Proof.
  intros H. destruct (get_loc_ok _ _ _ H) as [Hc _].
  destruct (get_loc_present _ _ Hc) as [j' [Hj' Hn]]. congruence.
Qed.

Lemma iloc_last_length df last :
  iloc_last df = Ok last -> List.length (s_data last) = len df.
Proof.
  unfold iloc_last, column_at.
  destruct (List.length (columns df)) as [|j]; [discriminate|].
  destruct (nth_error (dtypes df) j); [|discriminate].
  destruct (mapM (fun row => getitem_row row j) (values df)) as [vals|] eqn:E;
    simpl; [|discriminate].
  intros H; inversion H; subst; simpl. now apply mapM_length in E.
Qed.

(** The rows the spreadsheet formats are data rows of the sheet, never the
    header, and no row is formatted twice. *)
Theorem excel_gold_rows_are_data_rows df wb :
  create_excel_with_chart df = Ok wb ->
  (forall r, In r (excel_gold_rows wb) -> 1 <= r <= len df)
  /\ NoDup (excel_gold_rows wb).
Proof.
  intros Hwb.
  destruct (excel_gold_rows_spec _ _ Hwb) as (top & last & _ & Hlast & ->).
  rewrite <- (iloc_last_length _ _ Hlast).
  rewrite (set_rows_filter top
             (fun r => cell_in (nth (r - 1) (s_data last) NaN) top)
             (s_data last) 0).
  - split.
    + intros r Hr. apply filter_In in Hr. destruct Hr as [Hr _].
      apply in_seq in Hr. simpl in Hr. lia.
    + apply NoDup_filter, seq_NoDup.
  - intros k v Hk. simpl.
    replace (k + 1 - 1) with k by lia.
    now rewrite (nth_error_nth _ _ NaN Hk).
Qed.

Lemma excel_gold_rows_are_data_rows_witness :
  exists wb,
    create_excel_with_chart Samples.amount_not_last = Ok wb
    /\ (forall r, In r (excel_gold_rows wb) -> 1 <= r <= 4)
    /\ NoDup (excel_gold_rows wb).
Proof.
  eexists. split; [reflexivity|].
  apply (excel_gold_rows_are_data_rows Samples.amount_not_last). reflexivity.
Defined.

(** The one chart of the workbook is a column chart anchored at H2 whose
    values are the data rows of the resolved amount column and whose
    categories are the data rows of category, or of product_name when there
    is no category. *)
Theorem excel_chart_reads_resolved_columns df wb :
  create_excel_with_chart df = Ok wb ->
  exists ch s,
    charts wb = [("H2", ch)]
    /\ chart_type ch = "column"
    /\ chart_series_list ch = [s]
    /\ nth_error (columns df) (first_col (series_values s)) = Some (amount_column df)
    /\ nth_error (columns df) (first_col (series_categories s))
       = Some (if has_column df "category" then "category" else "product_name")
    /\ last_col (series_values s) = first_col (series_values s)
    /\ last_col (series_categories s) = first_col (series_categories s)
    /\ (first_row (series_values s), last_row (series_values s)) = (1, len df)
    /\ (first_row (series_categories s), last_row (series_categories s)) = (1, len df)
    /\ range_sheet (series_values s) = sheet_name wb
    /\ range_sheet (series_categories s) = sheet_name wb.
Proof.
  unfold create_excel_with_chart.
  destruct (top_amounts df) as [top|]; simpl; [|discriminate].
  destruct (iloc_last df) as [last|]; simpl; [|discriminate].
  assert (Hamt : forall ja,
            (if has_column df "total_amount"
             then let* j := get_loc df "total_amount" in Ok (j + 1)
             else let* j := get_loc df "amount" in Ok (j + 1)) = Ok ja ->
            nth_error (columns df) (ja - 1) = Some (amount_column df)).
  { intros ja. unfold amount_column.
    destruct (has_column df "total_amount").
    - destruct (get_loc df "total_amount") as [j|] eqn:Hj; simpl; [|discriminate].
      intros H; inversion H; subst. rewrite Nat.add_sub. now apply get_loc_nth.
    - destruct (get_loc df "amount") as [j|] eqn:Hj; simpl; [|discriminate].
      intros H; inversion H; subst. rewrite Nat.add_sub. now apply get_loc_nth. }
  assert (Hcat : forall jn,
            (if has_column df "category"
             then let* j := get_loc df "category" in Ok (j + 1)
             else let* j := get_loc df "product_name" in Ok (j + 1)) = Ok jn ->
            nth_error (columns df) (jn - 1)
            = Some (if has_column df "category" then "category" else "product_name")).
  { intros jn.
    destruct (has_column df "category").
    - destruct (get_loc df "category") as [j|] eqn:Hj; simpl; [|discriminate].
      intros H; inversion H; subst. rewrite Nat.add_sub. now apply get_loc_nth.
    - destruct (get_loc df "product_name") as [j|] eqn:Hj; simpl; [|discriminate].
      intros H; inversion H; subst. rewrite Nat.add_sub. now apply get_loc_nth. }
  match goal with
  | |- rbind ?c _ = _ -> _ => destruct c as [ja|] eqn:Hja; simpl; [|discriminate]
  end.
  match goal with
  | |- rbind ?c _ = _ -> _ => destruct c as [jn|] eqn:Hjn; simpl; [|discriminate]
  end.
  intros H; inversion H; subst; clear H.
  do 2 eexists. simpl.
  split; [reflexivity|]. split; [reflexivity|]. split; [reflexivity|].
  split; [now apply Hamt|]. split; [now apply Hcat|].
  repeat split; reflexivity.
Qed.

Lemma excel_chart_reads_resolved_columns_witness :
  exists wb ch s,
    create_excel_with_chart Samples.amount_not_last = Ok wb
    /\ charts wb = [("H2", ch)]
    /\ chart_series_list ch = [s]
    /\ nth_error (columns Samples.amount_not_last) (first_col (series_values s))
       = Some "total_amount".
Proof.
  destruct (excel_chart_reads_resolved_columns Samples.amount_not_last _ eq_refl)
    as (ch & s & Hch & _ & Hs & Hv & _).
  eexists. exists ch, s. split; [reflexivity|]. auto.
Defined.

(** ** The dashboard *)

(** The dashboard highlights amount before total_amount, the exports resolve
    total_amount before amount: the two name the same column exactly when
    the frame has one of the two and not the other. *)
Theorem dashboard_and_exports_name_same_column df :
  highlight_col df = amount_column df
  <-> xorb (has_column df "amount") (has_column df "total_amount") = true.
Proof.
  unfold highlight_col, amount_column.
  destruct (has_column df "amount"), (has_column df "total_amount"); simpl;
    split; intros H; try reflexivity; discriminate.
Qed.

(** ** Reading from the database *)

(** [fetch_data] leaves a connection open exactly when [pd.read_sql] raises
    on a connection that was obtained; otherwise the number of open
    connections is the one it found, and the frame read is returned as
    it is. *)
Theorem fetch_data_leaks_when_read_raises db text n :
  (snd (fetch_data db text n) = S n
   <-> (exists c, get_connection db = Ok c) /\ (exists e, read_sql db text = Err e))
  /\ (snd (fetch_data db text n) = n \/ snd (fetch_data db text n) = S n)
  /\ (forall df, fst (fetch_data db text n) = Ok df ->
        read_sql db text = Ok df /\ snd (fetch_data db text n) = n).
Proof.
  unfold fetch_data.
  destruct (get_connection db) as [c|e0]; destruct (read_sql db text) as [df|e];
    simpl.
  - split; [|split].
    + split; [intros H; exfalso; lia|intros [_ [e He]]; discriminate].
    + now left.
    + intros df' H. inversion H; subst. auto.
  - split; [|split].
    + split; [eauto|reflexivity].
    + now right.
    + intros df' H. discriminate.
  - split; [|split].
    + split; [intros H; exfalso; lia|intros [[c Hc] _]; discriminate].
    + now left.
    + intros df' H. discriminate.
  - split; [|split].
    + split; [intros H; exfalso; lia|intros [[c Hc] _]; discriminate].
    + now left.
    + intros df' H. discriminate.
Qed.

(** ** Which frames can be exported *)

Lemma top_amounts_numeric df top :
  top_amounts df = Ok top -> amount_dtype df = Some numeric.
Proof.
  intros Htop. destruct (top_amounts_ok _ _ Htop) as [_ [s [Hs Hn]]].
  unfold getitem, get_loc in Hs. unfold amount_dtype.
  destruct (index_of (amount_column df) (columns df)) as [j|]; simpl in Hs;
    [|discriminate].
  unfold column_at in Hs.
  destruct (nth_error (dtypes df) j) as [dt|]; [|discriminate].
  destruct (mapM (fun row => getitem_row row j) (values df)); simpl in Hs;
    [|discriminate].
  inversion Hs; subst s; clear Hs. unfold nlargest in Hn. simpl in Hn.
  now destruct dt.
Qed.

(** A well-formed frame with distinct labels is exported to a workbook
    exactly when its resolved amount column exists with a numeric dtype and
    it has a category or a product_name column. *)
Theorem spreadsheet_export_succeeds_iff df :
  well_formed df = true ->
  distinct_labels df = true ->
  ((exists wb, create_excel_with_chart df = Ok wb)
   <-> amount_dtype df = Some numeric
       /\ has_column df "category" || has_column df "product_name" = true).
Proof.
  intros Hwf _. split.
  - intros [wb Hwb].
    destruct (create_excel_ok _ _ Hwb) as (top & last & Htop & _ & Hcat & _).
    split; [now apply (top_amounts_numeric df top)|assumption].
  - intros [Hdt Hcat].
    destruct (top_amounts_total df Hwf Hdt) as [top Htop].
    now apply (create_excel_total df top).
Qed.

Lemma spreadsheet_export_succeeds_iff_witness :
  (exists wb, create_excel_with_chart Samples.by_category = Ok wb)
  <-> amount_dtype Samples.by_category = Some numeric
      /\ has_column Samples.by_category "category"
         || has_column Samples.by_category "product_name" = true.
Proof.
  apply (spreadsheet_export_succeeds_iff Samples.by_category); reflexivity.
Defined.

(** Where [doc.build] does not raise, a well-formed frame with distinct
    labels, numbers that [df.values] keeps as they are and, if it has
    product_name, bars that can be drawn, is rendered to a document exactly
    when its resolved amount column exists with a numeric dtype and it has
    product_name, or no category, or a total_amount column of sizes
    [plt.pie] accepts. *)
Theorem document_export_succeeds_iff df title w :
  well_formed df = true ->
  distinct_labels df = true ->
  float64_exact df = true ->
  build_raises w = false ->
  (has_column df "product_name" = true -> bar_plottable df = true) ->
  (fst (create_pdf df title w) = Ok "sales_report.pdf"
   <-> amount_dtype df = Some numeric
       /\ has_column df "product_name" || negb (has_column df "category")
            || pie_sizes_ok df = true).
Proof.
  intros Hwf _ _ Hb _. split.
  - intros Hrun.
    destruct (create_pdf df title w) as [r w'] eqn:E. simpl in Hrun. subst r.
    destruct (create_pdf_ok _ _ _ _ _ E) as (fig & top & cmds & Hfig & Htop & _).
    split; [now apply (top_amounts_numeric df top)|].
    destruct (has_column df "product_name") eqn:Hp; [reflexivity|].
    destruct (has_column df "category") eqn:Hc; [|reflexivity].
    simpl. now apply (chart_figure_pie_drawn df fig).
  - intros [Hdt Hcols].
    destruct (top_amounts_total df Hwf Hdt) as [top Htop].
    destruct (chart_figure_total df Hwf (has_amount_like df top Htop) Hcols)
      as [fig Hfig].
    destruct (create_pdf_total df title w top fig Hwf Htop Hfig Hb) as [cmds [_ ->]].
    reflexivity.
Qed.

Lemma document_export_succeeds_iff_witness :
  fst (create_pdf Samples.by_category "Sales by Category" Samples.clean)
  = Ok "sales_report.pdf"
  <-> amount_dtype Samples.by_category = Some numeric
      /\ has_column Samples.by_category "product_name"
         || negb (has_column Samples.by_category "category")
         || pie_sizes_ok Samples.by_category = true.
Proof.
  apply (document_export_succeeds_iff Samples.by_category "Sales by Category"
           Samples.clean); try reflexivity.
  discriminate.
Defined.
